(** * Hetzner Robot provider of lexicon: a shallow embedding

    The development follows [lexicon/providers/hetzner.py].  Python strings
    are lists of characters, Python exceptions are values of [exn], and the
    provider object is an explicit state threaded through a state-and-error
    monad.  What the provider consumes from elsewhere is gathered in the
    record [collaborators]: the base provider's [_fqdn_name] and
    [_full_name], the DNS answers, the replies of the Robot and the parser of
    rdata texts.  The zone object of dnspython is modelled by the operations
    the provider calls on it.

    Part I holds the definitions, Part II the facts. *)

From Stdlib Require Import ZArith Ascii String Lia Bool Arith List.
Import ListNotations.

(** * Part I: definitions *)

(** ** Python strings *)

(** A [str] is its sequence of characters.  A character is an [ascii], read
    as the code point of the same number (U+0000 to U+00FF). *)
Definition pystr : Type := list ascii.

Definition str (s : string) : pystr := list_ascii_of_string s.

(** The double quote, U+0022. *)
Definition dquote : ascii := ascii_of_nat 34.

Module Py.

Definition eqb (a b : pystr) : bool :=
  if list_eq_dec ascii_dec a b then true else false.

(** [x in (a, b, ...)] on strings. *)
Definition mem (x : pystr) (l : list pystr) : bool := existsb (eqb x) l.

(** [s.split(sep)] for a one-character separator: the pieces between the
    separators, always at least one piece. *)
Fixpoint split (sep : ascii) (s : pystr) : list pystr :=
  match s with
  | [] => [[]]
  | c :: s' =>
      if Ascii.eqb c sep then [] :: split sep s'
      else match split sep s' with
           | [] => [[c]]
           | p :: ps => (c :: p) :: ps
           end
  end.

(** [sep.join(parts)]. *)
Fixpoint join (sep : pystr) (parts : list pystr) : pystr :=
  match parts with
  | [] => []
  | p :: ps =>
      match ps with
      | [] => p
      | _ :: _ => p ++ sep ++ join sep ps
      end
  end.

(** [s.lstrip(c)], [s.rstrip(c)] and [s.strip(c)] for one character. *)
Fixpoint lstrip (c : ascii) (s : pystr) : pystr :=
  match s with
  | x :: s' => if Ascii.eqb x c then lstrip c s' else s
  | [] => []
  end.

Definition rstrip (c : ascii) (s : pystr) : pystr := rev (lstrip c (rev s)).

Definition strip (c : ascii) (s : pystr) : pystr := rstrip c (lstrip c s).

(** [s.startswith(p)], [s.endswith(p)] and [needle in hay]. *)
Fixpoint startswith (p s : pystr) : bool :=
  match p, s with
  | [], _ => true
  | a :: p', b :: s' => Ascii.eqb a b && startswith p' s'
  | _ :: _, [] => false
  end.

Definition endswith (p s : pystr) : bool := startswith (rev p) (rev s).

Fixpoint contains (needle hay : pystr) : bool :=
  startswith needle hay ||
  match hay with
  | [] => false
  | _ :: hay' => contains needle hay'
  end.

(** [s.count(c)] for one character. *)
Definition count (c : ascii) (s : pystr) : nat :=
  length (filter (Ascii.eqb c) s).

(** Truth value of an optional string: [None] and [''] are false. *)
Definition truthy (o : option pystr) : bool :=
  match o with
  | Some (_ :: _) => true
  | _ => false
  end.

(** The string behind an optional string that tested true. *)
Definition the (o : option pystr) : pystr :=
  match o with
  | Some s => s
  | None => []
  end.

(** [a if a else b]. *)
Definition orelse (a b : option pystr) : option pystr :=
  if truthy a then a else b.

Definition is_none (o : option pystr) : bool :=
  match o with
  | None => true
  | Some _ => false
  end.

End Py.

(** ** Exceptions and results *)

Inductive exn : Type :=
| IndexError
| TypeError
| KeyError
| AttributeError
| AssertionError
| DNSSyntaxError.

Inductive outcome (A : Type) : Type :=
| Ret (a : A)
| Raise (e : exn).
Arguments Ret {A} a.
Arguments Raise {A} e.

Definition obind {A B : Type} (o : outcome A) (k : A -> outcome B) : outcome B :=
  match o with
  | Ret a => k a
  | Raise e => Raise e
  end.

(** [s[0]] and [s[-1]]: an [IndexError] on the empty string. *)
Definition index_first (s : pystr) : outcome ascii :=
  match s with
  | c :: _ => Ret c
  | [] => Raise IndexError
  end.

Definition index_last (s : pystr) : outcome ascii :=
  match rev s with
  | c :: _ => Ret c
  | [] => Raise IndexError
  end.

(** [l[i]] on a list. *)
Definition index_nth {A : Type} (l : list A) (i : nat) : outcome A :=
  match nth_error l i with
  | Some x => Ret x
  | None => Raise IndexError
  end.

(** ** SHA-256 and the [hashlib] object *)

Module Sha256.

Local Open Scope Z_scope.

Definition wrap (x : Z) : Z := x mod 2 ^ 32.
Definition add32 (x y : Z) : Z := wrap (x + y).
Definition not32 (x : Z) : Z := Z.lxor x 0xffffffff.
Definition rotr (n x : Z) : Z :=
  Z.lor (Z.shiftr x n) (wrap (Z.shiftl x (32 - n))).

Definition Ch (x y z : Z) : Z := Z.lxor (Z.land x y) (Z.land (not32 x) z).
Definition Maj (x y z : Z) : Z :=
  Z.lxor (Z.lxor (Z.land x y) (Z.land x z)) (Z.land y z).
Definition Sigma0 (x : Z) : Z := Z.lxor (Z.lxor (rotr 2 x) (rotr 13 x)) (rotr 22 x).
Definition Sigma1 (x : Z) : Z := Z.lxor (Z.lxor (rotr 6 x) (rotr 11 x)) (rotr 25 x).
Definition sigma0 (x : Z) : Z := Z.lxor (Z.lxor (rotr 7 x) (rotr 18 x)) (Z.shiftr x 3).
Definition sigma1 (x : Z) : Z := Z.lxor (Z.lxor (rotr 17 x) (rotr 19 x)) (Z.shiftr x 10).

(** The round constants: the first 32 bits of the fractional parts of the
    cube roots of the first 64 primes. *)
Definition K : list Z :=
  [
    1116352408; 1899447441; 3049323471; 3921009573;
    961987163; 1508970993; 2453635748; 2870763221;
    3624381080; 310598401; 607225278; 1426881987;
    1925078388; 2162078206; 2614888103; 3248222580;
    3835390401; 4022224774; 264347078; 604807628;
    770255983; 1249150122; 1555081692; 1996064986;
    2554220882; 2821834349; 2952996808; 3210313671;
    3336571891; 3584528711; 113926993; 338241895;
    666307205; 773529912; 1294757372; 1396182291;
    1695183700; 1986661051; 2177026350; 2456956037;
    2730485921; 2820302411; 3259730800; 3345764771;
    3516065817; 3600352804; 4094571909; 275423344;
    430227734; 506948616; 659060556; 883997877;
    958139571; 1322822218; 1537002063; 1747873779;
    1955562222; 2024104815; 2227730452; 2361852424;
    2428436474; 2756734187; 3204031479; 3329325298
  ]%Z.

(** The eight working registers, and the chaining value between blocks. *)
Record regs : Type := Regs { ra : Z; rb : Z; rc : Z; rd : Z; re : Z; rf : Z; rg : Z; rh : Z }.

Definition H0 : regs :=
  Regs 0x6a09e667 0xbb67ae85 0x3c6ef372 0xa54ff53a 0x510e527f 0x9b05688c 0x1f83d9ab 0x5be0cd19.

(** Big-endian words of a block of bytes. *)
Fixpoint be_words (bs : list Z) : list Z :=
  match bs with
  | b0 :: b1 :: b2 :: b3 :: rest =>
      (b0 * 2 ^ 24 + b1 * 2 ^ 16 + b2 * 2 ^ 8 + b3) :: be_words rest
  | _ => []
  end.

(** The message schedule, newest word first: [extend n rw] adds [n] words
    to the reversed schedule [rw]. *)
Fixpoint extend (n : nat) (rw : list Z) : list Z :=
  match n with
  | O => rw
  | S n' =>
      let w := add32 (add32 (add32 (sigma1 (nth 1 rw 0)) (nth 6 rw 0))
                            (sigma0 (nth 14 rw 0))) (nth 15 rw 0) in
      extend n' (w :: rw)
  end.

Definition schedule (block : list Z) : list Z :=
  rev (extend 48 (rev (be_words block))).

Definition round (r : regs) (kw : Z * Z) : regs :=
  let t1 := add32 (add32 (add32 (add32 (rh r) (Sigma1 (re r))) (Ch (re r) (rf r) (rg r)))
                         (fst kw)) (snd kw) in
  let t2 := add32 (Sigma0 (ra r)) (Maj (ra r) (rb r) (rc r)) in
  Regs (add32 t1 t2) (ra r) (rb r) (rc r) (add32 (rd r) t1) (re r) (rf r) (rg r).

Definition compress (h : regs) (block : list Z) : regs :=
  let r := fold_left round (combine K (schedule block)) h in
  Regs (add32 (ra h) (ra r)) (add32 (rb h) (rb r)) (add32 (rc h) (rc r))
       (add32 (rd h) (rd r)) (add32 (re h) (re r)) (add32 (rf h) (rf r))
       (add32 (rg h) (rg r)) (add32 (rh h) (rh r)).

(** Padding of a message of [n] bytes: 0x80, zeros up to 56 modulo 64,
    and the bit length on eight bytes. *)
Definition be64 (x : Z) : list Z :=
  map (fun i => Z.shiftr x (8 * i) mod 256) [7; 6; 5; 4; 3; 2; 1; 0].

Definition padding (n : nat) : list Z :=
  0x80 :: repeat 0 ((119 - n mod 64) mod 64) ++ be64 (8 * Z.of_nat n).

Definition word_bytes (w : Z) : list Z :=
  map (fun i => Z.shiftr w (8 * i) mod 256) [3; 2; 1; 0].

Definition regs_bytes (h : regs) : list Z :=
  flat_map word_bytes [ra h; rb h; rc h; rd h; re h; rf h; rg h; rh h].

Definition hex_digit (n : Z) : ascii :=
  nth (Z.to_nat n) (str "0123456789abcdef") "0"%char.

Definition hex (bs : list Z) : pystr :=
  flat_map (fun b => [hex_digit (b / 16); hex_digit (b mod 16)]) bs.

(** *** The hash object of [hashlib]

    The object keeps the chaining value, the bytes of the last, incomplete
    block and the number of bytes seen.  [update] compresses every complete
    block as soon as it is available. *)
Record hash_object : Type :=
  HashObject { chain : regs; buffer : list Z; seen : nat }.

Definition new : hash_object := HashObject H0 [] 0.

Fixpoint absorb (fuel : nat) (h : regs) (bs : list Z) : regs * list Z :=
  match fuel with
  | O => (h, bs)
  | S fuel' =>
      if (64 <=? length bs)%nat
      then absorb fuel' (compress h (firstn 64 bs)) (skipn 64 bs)
      else (h, bs)
  end.

Definition update (o : hash_object) (data : list Z) : hash_object :=
  let all := buffer o ++ data in
  let hr := absorb (length all) (chain o) all in
  HashObject (fst hr) (snd hr) (seen o + length data).

Definition digest (o : hash_object) : list Z :=
  let all := buffer o ++ padding (seen o) in
  regs_bytes (fst (absorb (length all) (chain o) all)).

Definition hexdigest (o : hash_object) : pystr := hex (digest o).

(** *** SHA-256 of a whole message (FIPS 180-4)

    The message is padded, cut into blocks of 64 bytes, and the blocks are
    compressed one after the other from [H0]. *)
Fixpoint blocks (fuel : nat) (bs : list Z) : list (list Z) :=
  match fuel, bs with
  | S fuel', _ :: _ => firstn 64 bs :: blocks fuel' (skipn 64 bs)
  | _, _ => []
  end.

Definition sha256 (msg : list Z) : list Z :=
  let padded := msg ++ padding (length msg) in
  regs_bytes (fold_left compress (blocks (length padded) padded) H0).

Definition sha256_hex (msg : list Z) : pystr := hex (sha256 msg).

(** Absorbing with all the fuel the bytes can need. *)
Definition absorb_all (h : regs) (bs : list Z) : regs * list Z :=
  absorb (length bs) h bs.

(** The characters of a hexadecimal digest. *)
Definition is_hex (c : ascii) : Prop := In c (str "0123456789abcdef").

End Sha256.

(** [s.encode('UTF-8')]: one byte below U+0080, two bytes from U+0080 to
    U+00FF. *)
Definition utf8_char (c : ascii) : list Z :=
  let n := Z.of_N (N_of_ascii c) in
  if (n <? 128)%Z then [n]
  else [Z.lor 192 (Z.shiftr n 6); Z.lor 128 (Z.land n 63)].

Definition utf8 (s : pystr) : list Z := flat_map utf8_char s.

(** ** IdentifierCodec: [_build_identifier] *)

Definition _build_identifier (rdtype name content : pystr) : pystr :=
  let sha256 := Sha256.new in
  let sha256 := Sha256.update sha256 (utf8 (rdtype ++ str "/")) in
  let sha256 := Sha256.update sha256 (utf8 (name ++ str "/")) in
  let sha256 := Sha256.update sha256 (utf8 content) in
  firstn 7 (Sha256.hexdigest sha256).

(** ** The zone object (dnspython)

    A zone keeps its nodes by owner name, in insertion order; a node is its
    list of rdatasets, one per record type; an rdataset is a ttl and the set
    of its rdatas, each known by its text ([rdata.to_text()]).  Owner names
    and record types are compared as texts. *)

Record rdataset : Type := Rdataset {
  rds_type : pystr;
  rds_ttl : Z;
  rds_items : list pystr
}.

Definition node : Type := list rdataset.

Definition dns_zone : Type := list (pystr * node).

(** The dictionary [self.zone]. *)
Record zone_dict : Type := Zone {
  z_id : Z;
  z_name : pystr;
  z_token : pystr;
  z_data : dns_zone
}.

Module DnsZone.

Fixpoint find_node (name : pystr) (z : dns_zone) : option node :=
  match z with
  | [] => None
  | (n, nd) :: z' => if Py.eqb n name then Some nd else find_node name z'
  end.

(** [nodes[name] = nd]: an existing key keeps its place, a new one goes last. *)
Fixpoint set_node (name : pystr) (nd : node) (z : dns_zone) : dns_zone :=
  match z with
  | [] => [(name, nd)]
  | (n, nd') :: z' =>
      if Py.eqb n name then (n, nd) :: z' else (n, nd') :: set_node name nd z'
  end.

Definition delete_node (name : pystr) (z : dns_zone) : dns_zone :=
  filter (fun e => negb (Py.eqb (fst e) name)) z.

Definition node_find (rdtype : pystr) (nd : node) : option rdataset :=
  find (fun r => Py.eqb (rds_type r) rdtype) nd.

Definition node_delete (rdtype : pystr) (nd : node) : node :=
  filter (fun r => negb (Py.eqb (rds_type r) rdtype)) nd.

(** [zone.get_rdataset(name, rdtype)]: [None] when there is none. *)
Definition get_rdataset (name rdtype : pystr) (z : dns_zone) : option rdataset :=
  match find_node name z with
  | Some nd => node_find rdtype nd
  | None => None
  end.

(** What [zone.get_rdataset(name, rdtype, create=True)] does to the zone: a
    missing node and a missing rdataset are created, empty and with ttl 0. *)
Definition node_touch (rdtype : pystr) (nd : node) : node :=
  match node_find rdtype nd with
  | Some _ => nd
  | None => nd ++ [Rdataset rdtype 0 []]
  end.

Definition touch_rdataset (name rdtype : pystr) (z : dns_zone) : dns_zone :=
  match find_node name z with
  | Some nd => set_node name (node_touch rdtype nd) z
  | None => set_node name [Rdataset rdtype 0 []] z
  end.

(** [zone.replace_rdataset(name, replacement)]. *)
Definition replace_rdataset (name : pystr) (r : rdataset) (z : dns_zone) : dns_zone :=
  match find_node name z with
  | Some nd => set_node name (node_delete (rds_type r) nd ++ [r]) z
  | None => set_node name [r] z
  end.

(** [zone.delete_rdataset(name, rdtype)]: a node left empty is deleted. *)
Definition delete_rdataset (name rdtype : pystr) (z : dns_zone) : dns_zone :=
  match find_node name z with
  | Some nd =>
      match node_delete rdtype nd with
      | [] => delete_node name z
      | nd' => set_node name nd' z
      end
  | None => z
  end.

(** [zone.iterate_rdatasets()]. *)
Definition iterate_rdatasets (z : dns_zone) : list (pystr * rdataset) :=
  flat_map (fun e => map (fun r => (fst e, r)) (snd e)) z.

(** [Set.add]: an rdata already there is not added again. *)
Definition add_item (items : list pystr) (x : pystr) : list pystr :=
  if Py.mem x items then items else items ++ [x].

(** [Rdataset.update_ttl]. *)
Definition update_ttl (r : rdataset) (ttl : Z) : rdataset :=
  match rds_items r with
  | [] => Rdataset (rds_type r) ttl (rds_items r)
  | _ :: _ =>
      if (ttl <? rds_ttl r)%Z then Rdataset (rds_type r) ttl (rds_items r) else r
  end.

(** [rrset.update(other)]. *)
Definition update (r other : rdataset) : rdataset :=
  let r' := update_ttl r (rds_ttl other) in
  Rdataset (rds_type r') (rds_ttl r') (fold_left add_item (rds_items other) (rds_items r')).

(** [rrset.update(other)] on the rdataset of the zone that
    [get_rdataset(name, rdtype, create=True)] returned. *)
Definition update_rdataset (name rdtype : pystr) (other : rdataset) (z : dns_zone)
  : dns_zone :=
  match find_node name z with
  | Some nd =>
      set_node name
        (map (fun r => if Py.eqb (rds_type r) rdtype then update r other else r) nd) z
  | None => z
  end.

End DnsZone.

(** ** The provider *)

(** What the provider consumes and the sources do not define. *)
Record collaborators : Type := Collaborators {
  (** the base provider's [_fqdn_name] and [_full_name] *)
  _fqdn_name : pystr -> pystr;
  _full_name : pystr -> pystr;
  (** [dns_query t nameservers qname rdtype]: the rdata texts a resolver
      with these nameservers answers after [t] seconds; empty when the
      query raises a [DNSException] *)
  dns_query : nat -> list pystr -> pystr -> pystr -> list pystr;
  (** the value scraped from the culture preference page *)
  robot_language : pystr;
  (** the body of the reply to the submission of a zone *)
  robot_update : zone_dict -> pystr;
  (** [dns.rdata.from_text(rdclass, rdtype, text).to_text()] *)
  rdata_text : pystr -> pystr -> outcome pystr
}.

(** The options read through [_get_lexicon_option] and
    [_get_provider_option]. *)
Record options : Type := Options {
  opt_action : option pystr;
  opt_ttl : Z;
  opt_live_tests : option pystr;
  opt_propagated : option pystr
}.

(** The provider object, and what it has done to the outside world:
    [close_calls] counts the invocations of [_close_session], [logouts] the
    logout requests, [posts] keeps the zones submitted and [clock] the
    seconds slept. *)
Record provider : Type := Provider {
  nameservers : list pystr;
  cname : option pystr;
  session : bool;
  zone : option zone_dict;
  close_calls : nat;
  logouts : nat;
  posts : list dns_zone;
  clock : nat
}.

Definition set_session (b : bool) (st : provider) : provider :=
  Provider (nameservers st) (cname st) b (zone st)
           (close_calls st) (logouts st) (posts st) (clock st).

Definition set_records (z : dns_zone) (st : provider) : provider :=
  Provider (nameservers st) (cname st) (session st)
           (option_map (fun zn => Zone (z_id zn) (z_name zn) (z_token zn) z)
                       (zone st))
           (close_calls st) (logouts st) (posts st) (clock st).

Definition count_close (st : provider) : provider :=
  Provider (nameservers st) (cname st) (session st) (zone st)
           (S (close_calls st)) (logouts st) (posts st) (clock st).

Definition count_logout (st : provider) : provider :=
  Provider (nameservers st) (cname st) (session st) (zone st)
           (close_calls st) (S (logouts st)) (posts st) (clock st).

Definition add_post (z : dns_zone) (st : provider) : provider :=
  Provider (nameservers st) (cname st) (session st) (zone st)
           (close_calls st) (logouts st) (posts st ++ [z]) (clock st).

Definition advance_clock (n : nat) (st : provider) : provider :=
  Provider (nameservers st) (cname st) (session st) (zone st)
           (close_calls st) (logouts st) (posts st) (clock st + n).

(** *** The monad of the provider's methods *)

Definition M (A : Type) : Type := provider -> outcome A * provider.

Definition ret {A : Type} (a : A) : M A := fun st => (Ret a, st).

Definition raise {A : Type} (e : exn) : M A := fun st => (Raise e, st).

Definition bind {A B : Type} (m : M A) (k : A -> M B) : M B :=
  fun st =>
    match m st with
    | (Ret a, st') => k a st'
    | (Raise e, st') => (Raise e, st')
    end.

Definition lift {A : Type} (o : outcome A) : M A := fun st => (o, st).

Definition gets {A : Type} (f : provider -> A) : M A := fun st => (Ret (f st), st).

Definition modify (f : provider -> provider) : M unit := fun st => (Ret tt, f st).

Declare Scope provider_scope.
Delimit Scope provider_scope with M.
Notation "x <- m ;; k" := (bind m (fun x => k))
  (at level 61, m at next level, right associativity) : provider_scope.
Notation "m ;; k" := (bind m (fun _ => k))
  (at level 61, right associativity) : provider_scope.
Notation "x <~ o ;; k" := (obind o (fun x => k))
  (at level 61, o at next level, right associativity) : provider_scope.
Open Scope provider_scope.

(** The record a listing shows. *)
Record record : Type := Record_ {
  r_type : pystr;
  r_name : pystr;
  r_ttl : Z;
  r_content : pystr;
  r_id : pystr
}.

Definition max_concats : nat := 10.
Definition max_retry : nat := 20.

Section Provider.

Variable env : collaborators.
Variable cfg : options.

(** *** ContentNormalizer *)

Definition _wellformed_content (rdtype content : pystr) : outcome pystr :=
  content <~ (if Py.mem rdtype [str "TXT"; str "LOC"] then
                first <~ index_first content ;;
                let content :=
                  if negb (Ascii.eqb first dquote) then dquote :: content else content in
                last <~ index_last content ;;
                Ret (if negb (Ascii.eqb last dquote) then content ++ [dquote] else content)
              else Ret content) ;;
  if Py.mem rdtype [str "CNAME"; str "MX"; str "NS"; str "SRV"] then
    last <~ index_last content ;;
    Ret (if negb (Ascii.eqb last "."%char) then _fqdn_name env content else content)
  else Ret content.

Definition _raw_content (rdtype content : pystr) : pystr :=
  if Py.mem rdtype [str "TXT"; str "LOC"] then Py.strip dquote content else content.

(** *** SessionManager: [_close_session] *)

(** [self._get(url)], as far as the session goes: the base provider's
    [_get] calls [_request], whose [self.session.request] is an
    [AttributeError] when [self.session] is [None]. *)
Definition session_request : M unit :=
  open <- gets session ;;
  if open then ret tt else raise AttributeError.

Definition _close_session : M bool :=
  modify count_close ;;
  match opt_live_tests cfg with
  | None =>
      session_request ;;
      modify count_logout ;;
      modify (set_session false) ;;
      ret true
  | Some _ => ret false
  end.

(** *** DnsResolver *)

Definition _dns_lookup (t : nat) (qname rdtype : pystr) (nameservers : list pystr)
  : list pystr :=
  let nameservers :=
    match nameservers with
    | [] => [str "8.8.8.8"; str "8.8.4.4"]
    | _ :: _ => nameservers
    end in
  dns_query env t nameservers qname rdtype.

(** [dns.name.from_text(name).labels]: the labels of the absolute name, the
    empty root label last. *)
Definition name_labels (name : pystr) : list pystr :=
  let labels := Py.split "."%char name in
  match rev labels with
  | [] :: _ => labels
  | _ => labels ++ [[]]
  end.

(** [qname.to_text()] and [qname.to_text(True)]. *)
Definition labels_text (labels : list pystr) : pystr := Py.join (str ".") labels.

Definition labels_text_relative (labels : list pystr) : pystr :=
  Py.join (str ".") (removelast labels).

Definition add_nameserver (nameservers : list pystr) (ip : pystr) : list pystr :=
  if Py.mem ip nameservers then nameservers else nameservers ++ [ip].

(** The four nested loops of [_dns] at one [qname]. *)
Definition dns_nameservers (t : nat) (qname : pystr) : list pystr :=
  fold_left
    (fun nameservers rdtype_ns =>
       fold_left
         (fun nameservers rdata_ns =>
            fold_left
              (fun nameservers rdtype_ip =>
                 fold_left add_nameserver
                   (_dns_lookup t (hd [] (Py.split " "%char rdata_ns)) rdtype_ip [])
                   nameservers)
              [str "A"; str "AAAA"] nameservers)
         (_dns_lookup t qname rdtype_ns []) nameservers)
    [str "SOA"; str "NS"] [].

(** The [while] loop of [_dns], by recursion on the labels of [qname]:
    [qname.parent()] drops the first label. *)
Fixpoint dns_loop (t : nat) (labels : list pystr) : option (pystr * list pystr) :=
  match labels with
  | [] => None
  | _ :: parent =>
      if 2 <? length labels then
        match dns_nameservers t (labels_text labels) with
        | [] => dns_loop t parent
        | nameservers => Some (labels_text_relative labels, nameservers)
        end
      else None
  end.

Definition _dns (t : nat) (zone name : pystr) : pystr * list pystr :=
  match dns_loop t (name_labels name) with
  | Some (qzone, nameservers) => (qzone, nameservers)
  | None => (zone, [])
  end.

(** The [while concatenate] loop of [_dns_cname].  [fuel] bounds the number
    of iterations; [None] is returned when it runs out. *)
Fixpoint cname_loop (fuel concat : nat) (zone name : pystr)
    (nameservers : list pystr) (cname : option pystr)
  : M (option (pystr * list pystr * option pystr)) :=
  match fuel with
  | O => ret None
  | S fuel' =>
      if max_concats <=? concat then
        _close_session ;;
        raise AssertionError
      else
        let qname := if Py.truthy cname then Py.the cname else name in
        t <- gets clock ;;
        let zn := _dns t zone qname in
        match _dns_lookup t qname (str "CNAME") [] with
        | rdata :: _ => cname_loop fuel' (S concat) (fst zn) name (snd zn) (Some rdata)
        | [] => ret (Some (fst zn, snd zn, cname))
        end
  end.

Definition _dns_cname (zone : pystr) (name : option pystr) (concatenate : bool)
  : M (option (pystr * list pystr * option pystr)) :=
  if negb concatenate then
    let name := if Py.truthy name then _fqdn_name env (Py.the name)
                else zone ++ str "." in
    t <- gets clock ;;
    let zn := _dns t zone name in
    ret (Some (fst zn, snd zn, None))
  else
    match name with
    | None => raise AttributeError   (* [_fqdn_name(None)] *)
    | Some name => cname_loop (S max_concats) 0 zone (_fqdn_name env name) [] None
    end.

(** *** RecordOrchestrator: listing *)

(** [self.cname if self.cname else self._fqdn_name(name)]. *)
Definition owner_name (cn : option pystr) (name : pystr) : pystr :=
  if Py.truthy cn then Py.the cn else _fqdn_name env name.

(** The inner loop of [list_records], over the rdatas of one rdataset. *)
Fixpoint list_rdatas (rtype rname : pystr) (ttl : Z) (content : option pystr)
    (items : list pystr) (records : list record) : outcome (list record) :=
  match items with
  | [] => Ret records
  | rdata :: rest =>
      keep <~ (if negb (Py.truthy content) then Ret true
               else w <~ _wellformed_content rtype (Py.the content) ;;
                    Ret (Py.eqb w rdata)) ;;
      if keep then
        let raw_rdata := _raw_content rtype rdata in
        list_rdatas rtype rname ttl content rest
          (records ++ [Record_ rtype (_full_name env rname) ttl raw_rdata
                               (_build_identifier rtype rname raw_rdata)])
      else list_rdatas rtype rname ttl content rest records
  end.

(** The outer loop of [list_records], over the rdatasets of the zone. *)
Fixpoint list_rrsets (cn type name content : option pystr)
    (rrsets : list (pystr * rdataset)) (records : list record)
  : outcome (list record) :=
  match rrsets with
  | [] => Ret records
  | (rname, rds) :: rest =>
      let rtype := rds_type rds in
      if (negb (Py.truthy type) || Py.eqb (Py.the type) rtype)
         && (negb (Py.truthy name) || Py.eqb (owner_name cn (Py.the name)) rname)
      then
        records <~ list_rdatas rtype rname (rds_ttl rds) content (rds_items rds) records ;;
        list_rrsets cn type name content rest records
      else list_rrsets cn type name content rest records
  end.

Definition action_is_list : bool :=
  match opt_action cfg with
  | Some a => Py.eqb a (str "list")
  | None => false
  end.

Definition list_records (type name content : option pystr) : M (list record) :=
  z <- gets zone ;;
  cn <- gets cname ;;
  let rrsets :=
    match z with
    | Some zd => DnsZone.iterate_rdatasets (z_data zd)
    | None => []
    end in
  records <- lift (list_rrsets cn type name content rrsets []) ;;
  (if action_is_list then _close_session ;; ret tt else ret tt) ;;
  ret records.

(** *** IdentifierCodec: [_parse_identifier] *)

(** The result of [_parse_identifier]: [(rdtype, name, content)], each a
    string or [None]. *)
Definition record_key : Type := option pystr * option pystr * option pystr.

(** The loop of the hash form: every record with the identifier overwrites
    the result. *)
Definition match_identifier (identifier : pystr) (acc : record_key) (r : record) : record_key :=
  if Py.eqb (r_id r) identifier
  then (Some (r_type r), Some (r_name r ++ str "."), Some (r_content r))
  else acc.

Definition _parse_identifier (identifier : pystr) : M record_key :=
  if 7 <? length identifier then
    let parts := Py.split "/"%char identifier in
    rdtype <- lift (index_nth parts 0) ;;
    name <- lift (index_nth parts 1) ;;
    ret (Some rdtype, Some name, Some (Py.join (str "/") (skipn 2 parts)))
  else
    records <- list_records None None None ;;
    ret (fold_left (match_identifier identifier) records (None, None, None)).

(** *** ZoneStore: submission and propagation *)

(** The dictionary [post_response] of [_post_zone], indexed by the language:
    a [KeyError] for any other. *)
Definition post_response (language : pystr) : outcome pystr :=
  if Py.eqb language (str "de_DE") then Ret (str "Vielen Dank")
  else if Py.eqb language (str "en_GB") then Ret (str "Thank you for")
  else Raise KeyError.

(** [time.sleep(n)]. *)
Definition sleep (n : nat) : M unit := modify (advance_clock n).

Definition live_tests_is_false : bool :=
  match opt_live_tests cfg with
  | Some v => Py.eqb v (str "false")
  | None => false
  end.

(** [_post_zone]: the language is read ([_get_language], a request of the
    session), the zone is posted, and the reply is searched for the
    confirmation of that language; on success the method sleeps 30 seconds
    unless [live_tests] is ['false']. *)
Definition _post_zone : M bool :=
  session_request ;;
  let language := robot_language env in
  z <- gets zone ;;
  match z with
  | None => raise TypeError
  | Some zd =>
      modify (add_post (z_data zd)) ;;
      let response := robot_update env zd in
      confirmation <- lift (post_response language) ;;
      if Py.contains confirmation response then
        (if negb live_tests_is_false then sleep 30 else ret tt) ;;
        ret true
      else ret false
  end.

(** [for rdata in rdatas: if self._wellformed_content(rdtype, content) ==
    rdata.to_text(): return True], whether the loop returned. *)
Fixpoint has_rdata (rdtype content : pystr) (rdatas : list pystr) : outcome bool :=
  match rdatas with
  | [] => Ret false
  | rdata :: rest =>
      w <~ _wellformed_content rdtype content ;;
      if Py.eqb w rdata then Ret true else has_rdata rdtype content rest
  end.

(** The [while retry < max_retry] loop, with [remaining = max_retry - retry]. *)
Fixpoint propagated_loop (remaining : nat) (rdtype name content : pystr) : M bool :=
  match remaining with
  | O => ret false
  | S remaining' =>
      cn <- gets cname ;;
      ns <- gets nameservers ;;
      t <- gets clock ;;
      found <- lift (has_rdata rdtype content
                       (_dns_lookup t (owner_name cn name) rdtype ns)) ;;
      if found then ret true
      else sleep 30 ;; propagated_loop remaining' rdtype name content
  end.

Definition propagated_is_yes : bool :=
  match opt_propagated cfg with
  | Some v => Py.eqb v (str "yes")
  | None => false
  end.

Definition _propagated (rdtype name content : pystr) : M bool :=
  if propagated_is_yes then propagated_loop max_retry rdtype name content
  else ret false.

(** [self.zone['data']]. *)
Definition zone_records : M dns_zone :=
  z <- gets zone ;;
  match z with
  | Some zd => ret (z_data zd)
  | None => raise TypeError
  end.

(** [self.zone['data'].get_rdataset(name, rdtype=rdtype, create=True)]. *)
Definition get_rdataset_create (name rdtype : pystr) : M rdataset :=
  z <- zone_records ;;
  modify (set_records (DnsZone.touch_rdataset name rdtype z)) ;;
  ret (match DnsZone.get_rdataset name rdtype z with
       | Some r => r
       | None => Rdataset rdtype 0 []
       end).

(** [self.zone['data'].get_rdataset(name, rdtype=rdtype)], to be iterated:
    iterating [None] is a [TypeError]. *)
Definition get_rdataset_iter (name rdtype : pystr) : M rdataset :=
  z <- zone_records ;;
  match DnsZone.get_rdataset name rdtype z with
  | Some r => ret r
  | None => raise TypeError
  end.

(** [dns.rdataset.from_text_list(rdclass, rdtype, ttl, texts)]. *)
Fixpoint rdatas_from_text (rdtype : pystr) (texts items : list pystr)
  : outcome (list pystr) :=
  match texts with
  | [] => Ret items
  | text :: rest =>
      rd <~ rdata_text env rdtype text ;;
      rdatas_from_text rdtype rest (DnsZone.add_item items rd)
  end.

Definition from_text_list (rdtype : pystr) (ttl : Z) (texts : list pystr)
  : outcome rdataset :=
  items <~ rdatas_from_text rdtype texts [] ;;
  Ret (Rdataset rdtype ttl items).

(** The insertion both [create_record] and [update_record] end with: the
    ttl, the new rdataset and [rrset.update]. *)
Definition add_rdata (owner type content : pystr) (rrset : rdataset) : M unit :=
  let ttl := if (0 <? rds_ttl rrset)%Z && (rds_ttl rrset <? opt_ttl cfg)%Z
             then rds_ttl rrset else opt_ttl cfg in
  w <- lift (_wellformed_content type content) ;;
  rdataset <- lift (from_text_list (rds_type rrset) ttl [w]) ;;
  z <- zone_records ;;
  modify (set_records (DnsZone.update_rdataset owner type rdataset z)).

(** *** RecordOrchestrator: [create_record] *)

Definition create_record (type name content : option pystr) : M bool :=
  match type, name, content with
  | Some type, Some name, Some content =>
      cn <- gets cname ;;
      let owner := owner_name cn name in
      rrset <- get_rdataset_create owner type ;;
      found <- lift (has_rdata type content (rds_items rrset)) ;;
      if found then
        _close_session ;;
        ret true
      else
        add_rdata owner type content rrset ;;
        synced_change <- _post_zone ;;
        (if synced_change then _propagated type name content ;; ret tt else ret tt) ;;
        _close_session ;;
        ret synced_change
  | _, _, _ =>
      _close_session ;;
      ret false
  end.

(** *** RecordOrchestrator: [update_record] *)

(** The list comprehension kept by the deletion loops: the rdatas of the
    rdataset other than the record's. *)
Fixpoint keep_rdatas (rtype rcontent : pystr) (items kept : list pystr)
  : outcome (list pystr) :=
  match items with
  | [] => Ret kept
  | rdata :: rest =>
      w <~ _wellformed_content rtype rcontent ;;
      if negb (Py.eqb w rdata) then keep_rdatas rtype rcontent rest (kept ++ [rdata])
      else keep_rdatas rtype rcontent rest kept
  end.

(** The deletion loop of [update_record]; [Some b] when the loop returned
    [b] from the method. *)
Fixpoint update_delete_loop (delete_content : option pystr)
    (delete_records : list record) : M (option bool) :=
  match delete_records with
  | [] => ret None
  | record :: rest =>
      let rname := r_name record ++ str "." in
      delete_rrset <- get_rdataset_iter rname (r_type record) ;;
      keep <- lift (keep_rdatas (r_type record) (r_content record)
                      (rds_items delete_rrset) []) ;;
      match keep with
      | _ :: _ =>
          if Py.is_none delete_content then
            _close_session ;;
            ret (Some false)
          else
            keep_rdataset <- lift (from_text_list (rds_type delete_rrset)
                                     (r_ttl record) keep) ;;
            z <- zone_records ;;
            modify (set_records (DnsZone.replace_rdataset rname keep_rdataset z)) ;;
            update_delete_loop delete_content rest
      | [] =>
          z <- zone_records ;;
          modify (set_records (DnsZone.delete_rdataset rname (r_type record) z)) ;;
          update_delete_loop delete_content rest
      end
  end.

(** The first part of [update_record]: what to insert and what to look up,
    or [None] when the method returned [False]. *)
Definition update_arguments (identifier type name content : option pystr)
  : M (option (record_key * record_key)) :=
  if Py.truthy identifier then
    parsed <- _parse_identifier (Py.the identifier) ;;
    let '(delete_type, delete_name, delete_content) := parsed in
    if Py.truthy delete_type && Py.truthy delete_name && Py.truthy delete_content then
      ret (Some ((Py.orelse type delete_type, Py.orelse name delete_name,
                  Py.orelse content delete_content),
                 (delete_type, delete_name, delete_content)))
    else
      _close_session ;;
      ret None
  else if Py.truthy type && Py.truthy name && Py.truthy content then
    ret (Some ((type, name, content), (type, name, None)))
  else
    _close_session ;;
    ret None.

Definition update_record (identifier type name content : option pystr) : M bool :=
  arguments <- update_arguments identifier type name content ;;
  match arguments with
  | None => ret false
  | Some ((type, name, content), (delete_type, delete_name, delete_content)) =>
      delete_records <- list_records delete_type delete_name delete_content ;;
      match delete_records with
      | _ :: _ =>
          returned <- update_delete_loop delete_content delete_records ;;
          match returned with
          | Some b => ret b
          | None =>
              let type := Py.the type in
              let name := Py.the name in
              let content := Py.the content in
              cn <- gets cname ;;
              let owner := owner_name cn name in
              rrset <- get_rdataset_create owner type ;;
              synced_create_change <- lift (has_rdata type content (rds_items rrset)) ;;
              (if synced_create_change then ret tt
               else add_rdata owner type content rrset) ;;
              synced_change <- _post_zone ;;
              (if synced_change then _propagated type name content ;; ret tt
               else ret tt) ;;
              _close_session ;;
              ret synced_change
          end
      | [] =>
          _close_session ;;
          ret false
      end
  end.

(** *** RecordOrchestrator: [delete_record] *)

Fixpoint delete_loop (delete_records : list record) : M unit :=
  match delete_records with
  | [] => ret tt
  | record :: rest =>
      let rname := r_name record ++ str "." in
      rrset <- get_rdataset_iter rname (r_type record) ;;
      rdatas <- lift (keep_rdatas (r_type record) (r_content record)
                        (rds_items rrset) []) ;;
      match rdatas with
      | _ :: _ =>
          rdataset <- lift (from_text_list (rds_type rrset) (r_ttl record) rdatas) ;;
          z <- zone_records ;;
          modify (set_records (DnsZone.replace_rdataset rname rdataset z)) ;;
          delete_loop rest
      | [] =>
          z <- zone_records ;;
          modify (set_records (DnsZone.delete_rdataset rname (r_type record) z)) ;;
          delete_loop rest
      end
  end.

(** The first part of [delete_record]: what to look up, or [None] when the
    method returned [True]. *)
Definition delete_arguments (identifier type name content : option pystr)
  : M (option record_key) :=
  if Py.truthy identifier then
    parsed <- _parse_identifier (Py.the identifier) ;;
    let '(type, name, content) := parsed in
    if Py.is_none type || Py.is_none name || Py.is_none content then
      _close_session ;;
      ret None
    else ret (Some (type, name, content))
  else ret (Some (type, name, content)).

Definition delete_record (identifier type name content : option pystr) : M bool :=
  arguments <- delete_arguments identifier type name content ;;
  match arguments with
  | None => ret true
  | Some (type, name, content) =>
      delete_records <- list_records type name content ;;
      match delete_records with
      | _ :: _ =>
          delete_loop delete_records ;;
          synced_change <- _post_zone ;;
          _close_session ;;
          ret synced_change
      | [] =>
          _close_session ;;
          ret true
      end
  end.

(** *** What the methods do, in closed form *)

(** [_close_session] has a logout to send and no session to send it with. *)
Definition session_lost (st : provider) : bool :=
  match opt_live_tests cfg with
  | None => negb (session st)
  | Some _ => false
  end.

(** The provider after one invocation of [_close_session] that returned. *)
Definition closed (st : provider) : provider :=
  match opt_live_tests cfg with
  | None => set_session false (count_logout (count_close st))
  | Some _ => count_close st
  end.

(** How the walk of [_dns_cname] ends at the limit: the session is closed
    and [AssertionError] raised, unless the closing itself fails. *)
Definition refused {A : Type} (st : provider) : outcome A * provider :=
  if session_lost st then (Raise AttributeError, count_close st)
  else (Raise AssertionError, closed st).

(** The records [list_records] collects. *)
Definition listing (st : provider) (type name content : option pystr)
  : outcome (list record) :=
  list_rrsets (cname st) type name content
    (match zone st with
     | Some zd => DnsZone.iterate_rdatasets (z_data zd)
     | None => []
     end) [].

(** The result of the hash form of [_parse_identifier] on a listing. *)
Definition resolve_hash (identifier : pystr) (records : list record) : record_key :=
  fold_left (match_identifier identifier) records (None, None, None).

End Provider.

(** [_raw_content(t, _wellformed_content(t, c))]. *)
Definition raw_of_wellformed (env : collaborators) (rdtype content : pystr)
  : outcome pystr :=
  w <~ _wellformed_content env rdtype content ;;
  Ret (_raw_content rdtype w).

(** The record types [_wellformed_content] quotes and those it qualifies. *)
Definition quoted_types : list pystr := [str "TXT"; str "LOC"].
Definition fqdn_types : list pystr := [str "CNAME"; str "MX"; str "NS"; str "SRV"].

(** The first and the last character, when there is one. *)
Definition first_char (s : pystr) : option ascii := hd_error s.
Definition last_char (s : pystr) : option ascii := hd_error (rev s).

(** [m] invokes [_close_session] [n a] times when it returns [a]. *)
Definition closes_by {A : Type} (m : M A) (n : A -> nat) : Prop :=
  forall st a st', m st = (Ret a, st') -> close_calls st' = close_calls st + n a.

(** [m] leaves the zone and the submissions alone, however it ends. *)
Definition keeps_zone {A : Type} (m : M A) : Prop :=
  forall st, zone (snd (m st)) = zone st /\ posts (snd (m st)) = posts st.

(** The three operations that change the zone, as the client dispatches
    them. *)
Inductive operation : Type :=
| Create (type name content : option pystr)
| Update (identifier type name content : option pystr)
| Delete (identifier type name content : option pystr).

Definition run (env : collaborators) (cfg : options) (op : operation) : M bool :=
  match op with
  | Create type name content => create_record env cfg type name content
  | Update identifier type name content =>
      update_record env cfg identifier type name content
  | Delete identifier type name content =>
      delete_record env cfg identifier type name content
  end.

(** The operations that list the records on their way. *)
Definition lists_records (op : operation) : bool :=
  match op with
  | Create _ _ _ => false
  | Update _ _ _ _ | Delete _ _ _ _ => true
  end.


(** The answer to the CNAME lookup of one step of the walk of [_dns_cname],
    after [t] seconds, when the walk has reached [cname]. *)
Definition cname_hop (env : collaborators) (t : nat) (name : pystr)
    (cname : option pystr) : list pystr :=
  _dns_lookup env t (if Py.truthy cname then Py.the cname else name) (str "CNAME") [].

(** Where [k] hops lead from [cname], when there are that many. *)
Fixpoint cname_chain (env : collaborators) (t : nat) (name : pystr) (k : nat)
    (cname : option pystr) : option (option pystr) :=
  match k with
  | O => Some cname
  | S k' =>
      match cname_hop env t name cname with
      | rdata :: _ => cname_chain env t name k' (Some rdata)
      | [] => None
      end
  end.

(** ** A concrete base provider *)

Module Base.

(** Modelled from the spec: the base provider's [_fqdn_name], which the
    sources only call.  The spec has it "FQDN-qualify (append trailing dot
    relative to zone) if not already absolute": trailing dots are dropped,
    the zone is appended unless the name ends with it, and the dot of the
    root closes the name. *)
Definition fqdn_name (domain name : pystr) : pystr :=
  let name := Py.rstrip "."%char name in
  let name := if Py.endswith domain name then name
              else name ++ str "." ++ domain in
  name ++ str ".".

(** Modelled from the spec: the base provider's [_full_name], which the
    sources only call: the same name without the final dot. *)
Definition full_name (domain name : pystr) : pystr :=
  let name := Py.rstrip "."%char name in
  if Py.endswith domain name then name else name ++ str "." ++ domain.

(** A world around the zone [domain]: the DNS answers [dns], an English
    Robot that accepts every zone, and rdata texts that are canonical. *)
Definition world (domain : pystr)
    (dns : nat -> list pystr -> pystr -> pystr -> list pystr) : collaborators :=
  Collaborators (fqdn_name domain) (full_name domain) dns
                (str "en_GB") (fun _ => str "Thank you for your order")
                (fun _ text => Ret text).

Definition no_dns : nat -> list pystr -> pystr -> pystr -> list pystr :=
  fun _ _ _ _ => [].

(** The options of an invocation of [action]. *)
Definition invocation (action : string) : options :=
  Options (Some (str action)) 3600 None (Some (str "no")).

(** The options of an invocation of [action] in a live test. *)
Definition live_test (action : string) : options :=
  Options (Some (str action)) 3600 (Some (str "true")) (Some (str "no")).

(** A provider as [__init__] leaves it: no session and no zone yet. *)
Definition fresh : provider := Provider [] None false None 0 0 [] 0.

(** A provider that has authenticated and loaded the zone [z]. *)
Definition loaded (z : dns_zone) : provider :=
  Provider [] None true (Some (Zone 1 (str "example.com") (str "token") z)) 0 0 [] 0.

(** A text between double quotes. *)
Definition quoted (s : string) : pystr := dquote :: str s ++ [dquote].

(** A zone with two TXT rdatas at one owner, and an A record. *)
Definition sample_zone : dns_zone :=
  [ (str "_acme-challenge.example.com.",
     [Rdataset (str "TXT") 300 [quoted "abc123"; quoted "def456"]]);
    (str "www.example.com.",
     [Rdataset (str "A") 3600 [str "192.0.2.1"]]) ].

(** DNS answers made of CNAME records alone, [hops] pairing a name with
    its target. *)
Definition cname_dns (hops : list (pystr * pystr))
  : nat -> list pystr -> pystr -> pystr -> list pystr :=
  fun _ _ qname rdtype =>
    if Py.eqb rdtype (str "CNAME") then
      match find (fun h => Py.eqb (fst h) qname) hops with
      | Some h => [snd h]
      | None => []
      end
    else [].

(** [h0 -> h1 -> ... -> hn], each name in the zone example.com. *)
Definition hop_name (i : nat) : pystr :=
  str "h" ++ [ascii_of_nat (48 + i / 10); ascii_of_nat (48 + i mod 10)]
  ++ str ".example.com.".

Definition hops (n : nat) : list (pystr * pystr) :=
  map (fun i => (hop_name i, hop_name (S i))) (seq 0 n).

End Base.

(** ** Further definitions: listing *)

(** The record [list_records] makes of the rdata [rdata] of the rdataset
    [rds] at the owner name [rname]. *)
Definition record_of (env : collaborators) (rname : pystr) (rds : rdataset)
    (rdata : pystr) : record :=
  Record_ (rds_type rds) (_full_name env rname) (rds_ttl rds)
          (_raw_content (rds_type rds) rdata)
          (_build_identifier (rds_type rds) rname (_raw_content (rds_type rds) rdata)).

(** The rdatasets [list_records] iterates over. *)
Definition rrsets_of (st : provider) : list (pystr * rdataset) :=
  match zone st with
  | Some zd => DnsZone.iterate_rdatasets (z_data zd)
  | None => []
  end.

(** What the three filters of [list_records] ask of an rdata. *)
Definition selected (env : collaborators) (st : provider)
    (type name content : option pystr) (rname : pystr) (rds : rdataset)
    (rdata : pystr) : Prop :=
  (Py.truthy type = true -> Py.the type = rds_type rds)
  /\ (Py.truthy name = true -> owner_name env (cname st) (Py.the name) = rname)
  /\ (Py.truthy content = true ->
      _wellformed_content env (rds_type rds) (Py.the content) = Ret rdata).

(** ** Further definitions: submissions *)

(** [m] submits nothing, however it ends. *)
Definition quiet {A : Type} (m : M A) : Prop :=
  forall st, posts (snd (m st)) = posts st.

(** [m] submits at most once, and then the zone the provider holds when [m]
    ends; under a language [_post_zone] has no confirmation for, a
    submission ends in [KeyError]. *)
Definition submits_once (env : collaborators) {A : Type} (m : M A) : Prop :=
  forall st o st',
    m st = (o, st') ->
    posts st' = posts st
    \/ exists zd,
         zone st' = Some zd /\ posts st' = posts st ++ [z_data zd]
         /\ (post_response (robot_language env) = Raise KeyError ->
             o = Raise KeyError).

(** ** Further definitions: update *)


(** * Part II: facts *)

(** ** Strings *)

Module PyFacts.
Import Py.

Lemma eqb_eq (a b : pystr) : eqb a b = true <-> a = b.
Proof.
  unfold eqb. destruct (list_eq_dec ascii_dec a b); split; congruence.
Qed.

Lemma eqb_neq (a b : pystr) : eqb a b = false <-> a <> b.
Proof.
  unfold eqb. destruct (list_eq_dec ascii_dec a b); split; congruence.
Qed.

Lemma eqb_refl (a : pystr) : eqb a a = true.
Proof. now apply eqb_eq. Qed.

Lemma mem_In (x : pystr) (l : list pystr) : mem x l = true <-> In x l.
Proof.
  unfold mem. rewrite existsb_exists. split.
  - intros (y & Hy & E). apply eqb_eq in E. now subst.
  - intros H. exists x. split; [assumption | apply eqb_refl].
Qed.

Lemma split_not_nil (sep : ascii) (s : pystr) : split sep s <> [].
Proof.
  destruct s as [|c s]; cbn [split]; [discriminate|].
  destruct (Ascii.eqb c sep); [discriminate|].
  destruct (split sep s); discriminate.
Qed.

Lemma split_without (sep : ascii) (s : pystr) : ~ In sep s -> split sep s = [s].
Proof.
  induction s as [|c s IH]; intros Hn; [reflexivity|].
  cbn [split]. destruct (Ascii.eqb_spec c sep) as [->|Hne].
  - exfalso. apply Hn. now left.
  - rewrite IH; [reflexivity|]. intros Hin. apply Hn. now right.
Qed.

(** The first piece ends at the first separator. *)
Lemma split_first (sep : ascii) (p rest : pystr) :
  ~ In sep p -> split sep (p ++ sep :: rest) = p :: split sep rest.
Proof.
  induction p as [|c p IH]; intros Hn.
  - cbn [app split]. now rewrite Ascii.eqb_refl.
  - cbn [app split]. destruct (Ascii.eqb_spec c sep) as [->|Hne].
    + exfalso. apply Hn. now left.
    + rewrite IH; [reflexivity|]. intros Hin. apply Hn. now right.
Qed.

Lemma join_cons (sep p : pystr) (ps : list pystr) :
  ps <> [] -> join sep (p :: ps) = p ++ sep ++ join sep ps.
Proof. destruct ps; [congruence | reflexivity]. Qed.

Lemma join_push (sep : pystr) (c : ascii) (p : pystr) (ps : list pystr) :
  join sep ((c :: p) :: ps) = c :: join sep (p :: ps).
Proof. destruct ps; reflexivity. Qed.

Lemma join_split (sep : ascii) (s : pystr) : join [sep] (split sep s) = s.
Proof.
  induction s as [|c s IH]; [reflexivity|].
  cbn [split]. destruct (Ascii.eqb_spec c sep) as [->|Hne].
  - rewrite join_cons by apply split_not_nil. now rewrite IH.
  - pose proof (split_not_nil sep s) as Hnil.
    destruct (split sep s) as [|p ps]; [congruence|].
    now rewrite join_push, IH.
Qed.

Lemma count_cons (c x : ascii) (s : pystr) :
  count c (x :: s) = (if Ascii.eqb c x then 1 else 0) + count c s.
Proof. unfold count. cbn [filter]. now destruct (Ascii.eqb c x). Qed.

(** A string with an occurrence of [sep] splits at the first one. *)
Lemma first_occurrence (sep : ascii) (s : pystr) :
  1 <= count sep s ->
  exists p rest, s = p ++ sep :: rest /\ ~ In sep p /\ count sep s = S (count sep rest).
Proof.
  induction s as [|x s IH]; intros Hc; [cbn in Hc; lia|].
  rewrite count_cons in *. destruct (Ascii.eqb_spec sep x) as [<-|Hne].
  - exists [], s. repeat split; auto.
  - destruct (IH Hc) as (p & rest & -> & Hn & Hcount).
    exists (x :: p), rest. repeat split; [|assumption].
    intros [E|Hin]; [congruence | contradiction].
Qed.

Lemma lstrip_other (c : ascii) (s : pystr) :
  hd_error s <> Some c -> lstrip c s = s.
Proof.
  destruct s as [|x s]; [reflexivity|]. cbn [hd_error lstrip].
  destruct (Ascii.eqb_spec x c); [congruence | reflexivity].
Qed.

Lemma strip_quoted (c : ascii) (s : pystr) :
  hd_error s <> Some c -> hd_error (rev s) <> Some c ->
  strip c (c :: s ++ [c]) = s.
Proof.
  intros Hh Hl. unfold strip, rstrip. cbn [lstrip]. rewrite Ascii.eqb_refl.
  destruct s as [|x s].
  - cbn. now rewrite Ascii.eqb_refl.
  - rewrite (lstrip_other c ((x :: s) ++ [c])).
    + rewrite rev_app_distr. cbn [rev app lstrip]. rewrite Ascii.eqb_refl.
      change (rev s ++ [x]) with (rev (x :: s)).
      rewrite lstrip_other by assumption. apply rev_involutive.
    + cbn in *. congruence.
Qed.

End PyFacts.

(** ** Facts about the hash object *)

Module Sha256Facts.
Import Sha256.

Lemma absorb_S fuel h bs :
  absorb (S fuel) h bs =
  if 64 <=? length bs
  then absorb fuel (compress h (firstn 64 bs)) (skipn 64 bs)
  else (h, bs).
Proof. reflexivity. Qed.

Lemma absorb_short fuel h bs : length bs < 64 -> absorb fuel h bs = (h, bs).
Proof.
  intros Hlt. destruct fuel as [|fuel]; [reflexivity|].
  rewrite absorb_S. destruct (Nat.leb_spec 64 (length bs)); [lia | reflexivity].
Qed.

Lemma absorb_fuel fuel1 : forall fuel2 h bs,
  length bs <= fuel1 -> length bs <= fuel2 ->
  absorb fuel1 h bs = absorb fuel2 h bs.
Proof.
  induction fuel1 as [|fuel1 IH]; intros fuel2 h bs H1 H2.
  - rewrite !absorb_short by lia. reflexivity.
  - destruct fuel2 as [|fuel2].
    + rewrite !absorb_short by lia. reflexivity.
    + rewrite !absorb_S. destruct (Nat.leb_spec 64 (length bs)); [|reflexivity].
      apply IH; rewrite length_skipn; lia.
Qed.

Lemma absorb_all_unfold h bs :
  absorb_all h bs =
  if 64 <=? length bs
  then absorb_all (compress h (firstn 64 bs)) (skipn 64 bs)
  else (h, bs).
Proof.
  unfold absorb_all. destruct (Nat.leb_spec 64 (length bs)) as [Hge|Hlt].
  - destruct (length bs) as [|n] eqn:E; [lia|].
    rewrite absorb_S, E. destruct (Nat.leb_spec 64 (S n)); [|lia].
    apply absorb_fuel; rewrite length_skipn; lia.
  - now apply absorb_short.
Qed.

(** Feeding [bs] and then [rest] leaves the object where feeding
    [bs ++ rest] at once does. *)
Lemma absorb_all_app n : forall bs, length bs <= n -> forall h rest,
  absorb_all h (bs ++ rest) =
  absorb_all (fst (absorb_all h bs)) (snd (absorb_all h bs) ++ rest).
Proof.
  induction n as [|n IH]; intros bs Hn h rest.
  - destruct bs; [|simpl in Hn; lia].
    rewrite (absorb_all_unfold h []). reflexivity.
  - rewrite (absorb_all_unfold h bs).
    destruct (Nat.leb_spec 64 (length bs)) as [Hge|Hlt]; [|reflexivity].
    rewrite (absorb_all_unfold h (bs ++ rest)).
    destruct (Nat.leb_spec 64 (length (bs ++ rest))) as [_|Hlt];
      [|rewrite length_app in Hlt; lia].
    rewrite firstn_app, skipn_app.
    replace (64 - length bs) with 0 by lia.
    rewrite firstn_O, skipn_O, app_nil_r.
    apply IH. rewrite length_skipn. lia.
Qed.

Lemma update_update o a b : update (update o a) b = update o (a ++ b).
Proof.
  unfold update. cbn [chain buffer seen].
  fold (absorb_all (chain o) (buffer o ++ a)).
  fold (absorb_all (fst (absorb_all (chain o) (buffer o ++ a)))
                   (snd (absorb_all (chain o) (buffer o ++ a)) ++ b)).
  fold (absorb_all (chain o) (buffer o ++ a ++ b)).
  rewrite (app_assoc (buffer o) a b).
  rewrite (@absorb_all_app (length (buffer o ++ a)) (buffer o ++ a) (le_n _) (chain o) b).
  f_equal. rewrite length_app. lia.
Qed.

Lemma length_padding n : (n + length (padding n)) mod 64 = 0.
Proof.
  unfold padding. cbn [length]. rewrite length_app, repeat_length.
  change (length (be64 (8 * Z.of_nat n))) with 8.
  pose proof (Nat.mod_upper_bound n 64 ltac:(lia)) as Hr.
  pose proof (Nat.div_mod_eq n 64) as Hdm.
  remember (n mod 64) as r. remember (n / 64) as q.
  destruct (Nat.le_gt_cases r 55) as [Hle|Hgt].
  - replace ((119 - r) mod 64) with (55 - r).
    + replace (n + S (55 - r + 8)) with (0 + (q + 1) * 64) by lia.
      now rewrite Nat.Div0.mod_add.
    + apply (Nat.mod_unique _ _ 1); lia.
  - replace ((119 - r) mod 64) with (119 - r).
    + replace (n + S (119 - r + 8)) with (0 + (q + 2) * 64) by lia.
      now rewrite Nat.Div0.mod_add.
    + symmetry. apply Nat.mod_small. lia.
Qed.

Lemma blocks_S fuel bs :
  bs <> [] -> blocks (S fuel) bs = firstn 64 bs :: blocks fuel (skipn 64 bs).
Proof. destruct bs; [congruence | reflexivity]. Qed.

Lemma blocks_nil fuel : blocks fuel [] = [].
Proof. now destruct fuel. Qed.

Lemma blocks_fuel fuel1 : forall fuel2 bs,
  length bs <= fuel1 -> length bs <= fuel2 -> blocks fuel1 bs = blocks fuel2 bs.
Proof.
  induction fuel1 as [|fuel1 IH]; intros fuel2 bs H1 H2.
  - destruct bs; [|simpl in H1; lia]. now rewrite !blocks_nil.
  - destruct (list_eq_dec Z.eq_dec bs []) as [->|Hne]; [now rewrite !blocks_nil|].
    destruct fuel2 as [|fuel2]; [destruct bs; [congruence | simpl in H2; lia]|].
    rewrite !blocks_S by assumption. f_equal.
    assert (length bs <> 0) by (destruct bs; [congruence | simpl; lia]).
    apply IH; rewrite length_skipn; lia.
Qed.

(** On a whole number of blocks, absorbing is folding [compress] over the
    blocks, and nothing stays in the buffer. *)
Lemma absorb_all_blocks k : forall bs h,
  length bs = k * 64 ->
  absorb_all h bs = (fold_left compress (blocks (length bs) bs) h, []).
Proof.
  induction k as [|k IH]; intros bs h Hlen.
  - destruct bs; [reflexivity | simpl in Hlen; lia].
  - rewrite absorb_all_unfold.
    destruct (Nat.leb_spec 64 (length bs)); [|lia].
    rewrite IH by (rewrite length_skipn; lia).
    destruct (length bs) as [|m] eqn:Em; [lia|].
    rewrite blocks_S by (intros ->; discriminate).
    cbn [fold_left]. f_equal. f_equal.
    apply blocks_fuel; rewrite length_skipn; lia.
Qed.

(** The hash object computes SHA-256 of everything it was fed. *)
Lemma digest_update_new msg : digest (update new msg) = sha256 msg.
Proof.
  unfold digest, update, sha256, new. cbn [chain buffer seen app Nat.add].
  fold (absorb_all H0 msg).
  fold (absorb_all (fst (absorb_all H0 msg))
                   (snd (absorb_all H0 msg) ++ padding (length msg))).
  rewrite <- (@absorb_all_app (length msg) msg (le_n _)).
  pose proof (length_padding (length msg)) as Hm.
  rewrite <- length_app in Hm.
  apply Nat.Div0.div_exact in Hm.
  rewrite (@absorb_all_blocks (length (msg ++ padding (length msg)) / 64)) by lia.
  reflexivity.
Qed.

Lemma length_hex bs : length (hex bs) = 2 * length bs.
Proof. induction bs as [|b bs IH]; [reflexivity|]. cbn [hex flat_map app length] in *. unfold hex in IH. lia. Qed.

Lemma length_regs_bytes h : length (regs_bytes h) = 32.
Proof. reflexivity. Qed.

Lemma length_hexdigest o : length (hexdigest o) = 64.
Proof. unfold hexdigest, digest. now rewrite length_hex, length_regs_bytes. Qed.

Lemma hex_digit_is_hex n : is_hex (hex_digit n).
Proof.
  unfold hex_digit, is_hex.
  destruct (Nat.lt_ge_cases (Z.to_nat n) (length (str "0123456789abcdef"))) as [Hlt|Hge].
  - now apply nth_In.
  - rewrite nth_overflow by assumption. vm_compute. tauto.
Qed.

Lemma hex_is_hex bs : Forall is_hex (hex bs).
Proof.
  induction bs as [|b bs IH]; [constructor|].
  cbn [hex flat_map app].
  constructor; [apply hex_digit_is_hex|].
  constructor; [apply hex_digit_is_hex | exact IH].
Qed.

End Sha256Facts.

Lemma utf8_app (a b : pystr) : utf8 (a ++ b) = utf8 a ++ utf8 b.
Proof. unfold utf8. apply flat_map_app. Qed.

Lemma build_identifier_eq (rdtype name content : pystr) :
  _build_identifier rdtype name content
  = firstn 7 (Sha256.sha256_hex
                (utf8 (rdtype ++ str "/") ++ utf8 (name ++ str "/") ++ utf8 content)).
Proof.
  unfold _build_identifier, Sha256.hexdigest, Sha256.sha256_hex.
  rewrite !Sha256Facts.update_update, Sha256Facts.digest_update_new.
  reflexivity.
Qed.

Lemma build_identifier_length (rdtype name content : pystr) :
  length (_build_identifier rdtype name content) = 7.
Proof.
  unfold _build_identifier. rewrite length_firstn, Sha256Facts.length_hexdigest.
  reflexivity.
Qed.

(** C2. [_build_identifier] returns the first 7 characters of the hexadecimal
    SHA-256 digest of the UTF-8 bytes of [rdtype + "/"], followed by those of
    [name + "/"], followed by those of [content]: seven lower-case
    hexadecimal digits, a function of the three strings alone. *)
Theorem build_identifier_sha256 (rdtype name content : pystr) :
  _build_identifier rdtype name content
  = firstn 7 (Sha256.sha256_hex
                (utf8 (rdtype ++ str "/") ++ utf8 (name ++ str "/") ++ utf8 content))
  /\ _build_identifier rdtype name content
     = firstn 7 (Sha256.sha256_hex
                   (utf8 (rdtype ++ str "/" ++ name ++ str "/" ++ content)))
  /\ length (_build_identifier rdtype name content) = 7
  /\ Forall Sha256.is_hex (_build_identifier rdtype name content).
Proof.
  split; [apply build_identifier_eq|]. split; [|split].
  - rewrite build_identifier_eq, <- !utf8_app, <- !app_assoc. reflexivity.
  - apply build_identifier_length.
  - unfold _build_identifier, Sha256.hexdigest. apply Forall_forall. intros c Hc.
    eapply Forall_forall; [apply Sha256Facts.hex_is_hex|].
    rewrite <- (firstn_skipn 7). apply in_or_app. left. exact Hc.
Qed.

(** The test vectors of FIPS 180-4: the empty message, one block, two
    blocks. *)
Example sha256_empty :
  Sha256.sha256_hex []
  = str "e3b0c44298fc1c149afbf4c8996fb92427ae41e4649b934ca495991b7852b855".
Proof. vm_compute. reflexivity. Qed.

Example sha256_abc :
  Sha256.sha256_hex (utf8 (str "abc"))
  = str "ba7816bf8f01cfea414140de5dae2223b00361a396177a9cb410ff61f20015ad".
Proof. vm_compute. reflexivity. Qed.

Example sha256_two_blocks :
  Sha256.sha256_hex
    (utf8 (str "abcdbcdecdefdefgefghfghighijhijkijkljklmklmnlmnomnopnopq"))
  = str "248d6a61d20638b8e5c026930c3e6039a33ce45964ff2167f6ecedd419db06c1".
Proof. vm_compute. reflexivity. Qed.

Example build_identifier_example :
_build_identifier (str "TXT") (str "example.com.") (str "challengetoken")
= str "621c9bf".
Proof. vm_compute. reflexivity. Qed.
(** ** IdentifierCodec: the raw form *)

(** C1. An identifier longer than 7 characters with at least two ['/'] is
    parsed without looking at the records, whatever the zone and the
    options: the provider is left as it was and the result is the piece
    before the first ['/'], the piece between the first and the second, and
    all that follows, further ['/'] included ([parts[2:]] joined again). *)
Theorem parse_identifier_raw_form (env : collaborators) (cfg : options)
    (identifier : pystr) (st : provider) :
  7 < length identifier ->
  2 <= Py.count "/"%char identifier ->
  exists rdtype name content : pystr,
    identifier = rdtype ++ str "/" ++ name ++ str "/" ++ content
    /\ ~ In "/"%char rdtype
    /\ ~ In "/"%char name
    /\ content = Py.join (str "/") (skipn 2 (Py.split "/"%char identifier))
    /\ _parse_identifier env cfg identifier st
       = (Ret (Some rdtype, Some name, Some content), st).
Proof.
  intros Hlen Hcount.
  destruct (PyFacts.first_occurrence "/"%char identifier) as (t & r1 & E1 & Ht & C1);
    [lia|].
  destruct (PyFacts.first_occurrence "/"%char r1) as (n & r2 & E2 & Hn & C2); [lia|].
  assert (Hparts : Py.split "/"%char identifier = t :: n :: Py.split "/"%char r2).
  { rewrite E1, PyFacts.split_first by assumption.
    rewrite E2, PyFacts.split_first by assumption. reflexivity. }
  exists t, n, r2. split; [|split; [|split; [|split]]].
  - rewrite E1, E2. reflexivity.
  - exact Ht.
  - exact Hn.
  - rewrite Hparts. cbn [skipn]. symmetry. apply PyFacts.join_split.
  - unfold _parse_identifier.
    destruct (Nat.ltb_spec 7 (length identifier)) as [_|Hle]; [|lia].
    rewrite Hparts. cbn [skipn]. change (str "/") with ["/"%char].
    rewrite PyFacts.join_split. reflexivity.
Qed.

Lemma parse_identifier_raw_form_witness :
  exists rdtype name content : pystr,
    str "TXT/example.com./a/b" = rdtype ++ str "/" ++ name ++ str "/" ++ content
    /\ ~ In "/"%char rdtype
    /\ ~ In "/"%char name
    /\ content = Py.join (str "/") (skipn 2 (Py.split "/"%char (str "TXT/example.com./a/b")))
    /\ _parse_identifier (Base.world (str "example.com") Base.no_dns)
         (Base.invocation "delete") (str "TXT/example.com./a/b") (Base.loaded [])
       = (Ret (Some rdtype, Some name, Some content), Base.loaded []).
Proof.
  apply (parse_identifier_raw_form
           (Base.world (str "example.com") Base.no_dns) (Base.invocation "delete")
           (str "TXT/example.com./a/b") (Base.loaded [])).
  - vm_compute. lia.
  - vm_compute. lia.
Defined.

Example parse_identifier_raw_example :
  _parse_identifier (Base.world (str "example.com") Base.no_dns)
    (Base.invocation "delete") (str "TXT/example.com./a/b") (Base.loaded [])
  = (Ret (Some (str "TXT"), Some (str "example.com."), Some (str "a/b")),
     Base.loaded []).
Proof. vm_compute. reflexivity. Qed.

(** ** ContentNormalizer *)

Section Normalizer.

Variable env : collaborators.

Lemma quoted_not_fqdn (t : pystr) :
  Py.mem t quoted_types = true -> Py.mem t fqdn_types = false.
Proof.
  intros H. apply PyFacts.mem_In in H.
  destruct H as [<-|[<-|[]]]; vm_compute; reflexivity.
Qed.

Lemma last_char_app (s : pystr) (c : ascii) : last_char (s ++ [c]) = Some c.
Proof. unfold last_char. now rewrite rev_app_distr. Qed.

Lemma last_char_cons (c : ascii) (s : pystr) :
  s <> [] -> last_char (c :: s) = last_char s.
Proof.
  unfold last_char. intros Hs. cbn [rev].
  destruct (rev s) as [|x r] eqn:E; [|reflexivity].
  apply (f_equal (@rev ascii)) in E. rewrite rev_involutive in E. contradiction.
Qed.

Lemma index_last_char (s : pystr) :
  index_last s = match last_char s with
                 | Some c => Ret c
                 | None => Raise IndexError
                 end.
Proof. unfold index_last, last_char. now destruct (rev s). Qed.

Lemma last_char_none (s : pystr) : last_char s = None <-> s = [].
Proof.
  unfold last_char. split; [|now intros ->].
  destruct (rev s) eqn:E; [|discriminate]. intros _.
  apply (f_equal (@rev ascii)) in E. now rewrite rev_involutive in E.
Qed.

(** Content of a quoted type without quotes around it gets both. *)
Lemma wellformed_quotes (t c : pystr) :
  Py.mem t quoted_types = true ->
  c <> [] -> first_char c <> Some dquote -> last_char c <> Some dquote ->
  _wellformed_content env t c = Ret (dquote :: c ++ [dquote]).
Proof.
  intros Ht Hc Hf Hl. unfold _wellformed_content.
  fold quoted_types fqdn_types. rewrite Ht, (quoted_not_fqdn _ Ht).
  destruct c as [|x c]; [congruence|]. cbn [index_first obind].
  destruct (Ascii.eqb_spec x dquote) as [->|Hx]; [now elim Hf|]. cbn [negb].
  rewrite index_last_char, last_char_cons by discriminate.
  destruct (last_char (x :: c)) as [l|] eqn:El.
  - cbn [obind]. destruct (Ascii.eqb_spec l dquote) as [->|_]; [now elim Hl|].
    reflexivity.
  - apply last_char_none in El. discriminate.
Qed.

(** Content of a qualified type: left alone with a final dot, handed to
    [_fqdn_name] without. *)
Lemma wellformed_fqdn (t c : pystr) (l : ascii) :
  Py.mem t fqdn_types = true -> last_char c = Some l ->
  _wellformed_content env t c
  = Ret (if Ascii.eqb l "."%char then c else _fqdn_name env c).
Proof.
  intros Ht Hl. unfold _wellformed_content. fold quoted_types fqdn_types.
  assert (Hq : Py.mem t quoted_types = false).
  { destruct (Py.mem t quoted_types) eqn:E; [|reflexivity].
    apply quoted_not_fqdn in E. congruence. }
  rewrite Hq, Ht. cbn [obind]. rewrite index_last_char, Hl. cbn [obind].
  now destruct (Ascii.eqb l "."%char).
Qed.

Lemma wellformed_other (t c : pystr) :
  Py.mem t quoted_types = false -> Py.mem t fqdn_types = false ->
  _wellformed_content env t c = Ret c.
Proof.
  intros Hq Hf. unfold _wellformed_content. fold quoted_types fqdn_types.
  now rewrite Hq, Hf.
Qed.

(** On the empty string the first index raises. *)
Lemma wellformed_empty (t : pystr) :
  Py.mem t (quoted_types ++ fqdn_types) = true ->
  _wellformed_content env t [] = Raise IndexError.
Proof.
  intros Ht. unfold _wellformed_content. fold quoted_types fqdn_types.
  unfold Py.mem in Ht. rewrite existsb_app in Ht. fold (Py.mem t quoted_types) in Ht.
  fold (Py.mem t fqdn_types) in Ht.
  destruct (Py.mem t quoted_types); [reflexivity|]. cbn [obind].
  cbn [orb] in Ht. rewrite Ht. reflexivity.
Qed.

(** On a non-empty string no index raises. *)
Lemma wellformed_nonempty (t c : pystr) :
  c <> [] -> exists w, _wellformed_content env t c = Ret w.
Proof.
  intros Hc. unfold _wellformed_content. fold quoted_types fqdn_types.
  assert (Hstep : forall c1, c1 <> [] ->
            exists w, (if Py.mem t fqdn_types
                       then last <~ index_last c1 ;;
                            Ret (if negb (Ascii.eqb last "."%char)
                                 then _fqdn_name env c1 else c1)
                       else Ret c1) = Ret w).
  { intros c1 H1. destruct (Py.mem t fqdn_types); [|eauto].
    rewrite index_last_char. destruct (last_char c1) eqn:E.
    - cbn [obind]. eauto.
    - apply last_char_none in E. contradiction. }
  destruct (Py.mem t quoted_types).
  - destruct c as [|x c]; [congruence|]. cbn [index_first obind].
    set (c1 := if negb (Ascii.eqb x dquote) then dquote :: x :: c else x :: c).
    assert (H1 : c1 <> []) by (subst c1; destruct (negb _); discriminate).
    rewrite index_last_char. destruct (last_char c1) eqn:E.
    + cbn [obind]. apply Hstep.
      destruct (negb (Ascii.eqb a dquote)); [|exact H1].
      intros E'. apply app_eq_nil in E'. destruct E'; discriminate.
    + apply last_char_none in E. contradiction.
  - cbn [obind]. now apply Hstep.
Qed.

End Normalizer.

(** C3 (as amended).  [_raw_content] undoes [_wellformed_content] on content
    that needs no qualification: for TXT and LOC when the content is not
    empty and has no quote at either end, for CNAME, MX, NS and SRV when the
    content already ends with a dot, and for every other type. *)
Theorem raw_of_wellformed_inverse (env : collaborators) (t c : pystr) :
  (Py.mem t quoted_types = true ->
   c <> [] /\ first_char c <> Some dquote /\ last_char c <> Some dquote) ->
  (Py.mem t fqdn_types = true -> last_char c = Some "."%char) ->
  raw_of_wellformed env t c = Ret c.
Proof.
  intros Hq Hf. unfold raw_of_wellformed.
  destruct (Py.mem t quoted_types) eqn:Eq.
  - destruct (Hq eq_refl) as (Hc & Hfirst & Hlast).
    rewrite wellformed_quotes by assumption. cbn [obind].
    unfold _raw_content. fold quoted_types. rewrite Eq.
    f_equal. now apply PyFacts.strip_quoted.
  - destruct (Py.mem t fqdn_types) eqn:Ef.
    + rewrite (@wellformed_fqdn env t c _ Ef (Hf eq_refl)). cbn [Ascii.eqb Bool.eqb]. cbn [obind].
      unfold _raw_content. fold quoted_types. now rewrite Eq.
    + rewrite wellformed_other by assumption. cbn [obind].
      unfold _raw_content. fold quoted_types. now rewrite Eq.
Qed.

Lemma raw_of_wellformed_inverse_witness :
  raw_of_wellformed (Base.world (str "example.com") Base.no_dns)
    (str "TXT") (str "abc123") = Ret (str "abc123").
Proof.
  apply (raw_of_wellformed_inverse
           (Base.world (str "example.com") Base.no_dns) (str "TXT") (str "abc123")).
  - intros _. repeat split; vm_compute; discriminate.
  - vm_compute. discriminate.
Defined.

(** For CNAME, MX, NS and SRV content without a final dot, the round trip
    ends in the name [_fqdn_name] made. *)
Lemma raw_of_wellformed_fqdn (env : collaborators) (t c : pystr) (l : ascii) :
  Py.mem t fqdn_types = true -> last_char c = Some l -> l <> "."%char ->
  raw_of_wellformed env t c = Ret (_fqdn_name env c).
Proof.
  intros Hf Hl Hne. unfold raw_of_wellformed.
  rewrite (@wellformed_fqdn env t c l Hf Hl).
  destruct (Ascii.eqb_spec l "."%char); [contradiction|]. cbn [obind].
  unfold _raw_content. fold quoted_types.
  destruct (Py.mem t quoted_types) eqn:Eq; [|reflexivity].
  apply quoted_not_fqdn in Eq. congruence.
Qed.

(** C3, as stated, fails on a CNAME: content without a final dot comes back
    qualified. *)
Lemma raw_of_wellformed_cname_counterexample :
  last_char (str "www") = Some "w"%char
  /\ raw_of_wellformed (Base.world (str "example.com") Base.no_dns)
       (str "CNAME") (str "www") = Ret (str "www.example.com.").
Proof. split; vm_compute; reflexivity. Qed.

(** ** The monad *)

Section MonadFacts.

Context {A B : Type}.

Lemma bind_ret (m : M A) (k : A -> M B) (st st' : provider) (a : A) :
  m st = (Ret a, st') -> bind m k st = k a st'.
Proof. unfold bind. now intros ->. Qed.

Lemma bind_raise (m : M A) (k : A -> M B) (st st' : provider) (e : exn) :
  m st = (Raise e, st') -> bind m k st = (Raise e, st').
Proof. unfold bind. now intros ->. Qed.

(** A [bind] that returns: both halves did. *)
Lemma bind_returns (m : M A) (k : A -> M B) (st st'' : provider) (b : B) :
  bind m k st = (Ret b, st'') ->
  exists a st', m st = (Ret a, st') /\ k a st' = (Ret b, st'').
Proof.
  unfold bind. destruct (m st) as [[a|e] st']; intros H; [eauto | discriminate].
Qed.

Lemma closes_bind (m : M A) (k : A -> M B) (f : A -> nat) (g : A -> B -> nat)
    (h : B -> nat) :
  closes_by m f -> (forall a, closes_by (k a) (g a)) ->
  (forall a b, f a + g a b = h b) ->
  closes_by (bind m k) h.
Proof.
  intros Hm Hk Hsum st b st'' Hb.
  apply bind_returns in Hb. destruct Hb as (a & st' & H1 & H2).
  rewrite (Hk a _ _ _ H2), (Hm _ _ _ H1), <- (Hsum a b). lia.
Qed.

Lemma closes_bind_0 (m : M A) (k : A -> M B) (h : B -> nat) :
  closes_by m (fun _ => 0) -> (forall a, closes_by (k a) h) ->
  closes_by (bind m k) h.
Proof.
  intros Hm Hk. eapply closes_bind; [exact Hm | exact Hk | reflexivity].
Qed.

Lemma keeps_bind (m : M A) (k : A -> M B) :
  keeps_zone m -> (forall a, keeps_zone (k a)) -> keeps_zone (bind m k).
Proof.
  intros Hm Hk st. unfold bind. pose proof (Hm st) as H.
  destruct (m st) as [[a|e] st']; cbn [snd] in *; [|exact H].
  destruct (Hk a st') as [H1 H2]. destruct H as [H3 H4]. split; congruence.
Qed.

End MonadFacts.

Lemma closes_ret {A : Type} (a : A) (n : A -> nat) : n a = 0 -> closes_by (ret a) n.
Proof. intros Hn st a' st' H. injection H as <- <-. lia. Qed.

Lemma closes_raise {A : Type} (e : exn) (n : A -> nat) : closes_by (raise e) n.
Proof. intros st a st' H. discriminate. Qed.

Lemma closes_lift {A : Type} (o : outcome A) : closes_by (lift o) (fun _ => 0).
Proof. intros st a st' H. injection H as _ <-. lia. Qed.

Lemma closes_gets {A : Type} (f : provider -> A) : closes_by (gets f) (fun _ => 0).
Proof. intros st a st' H. injection H as _ <-. lia. Qed.

Lemma closes_modify (f : provider -> provider) :
  (forall st, close_calls (f st) = close_calls st) ->
  closes_by (modify f) (fun _ => 0).
Proof.
  intros Hf st a st' H. unfold modify in H. inversion H; subst.
  rewrite Hf. lia.
Qed.

Lemma keeps_ret {A : Type} (a : A) : keeps_zone (ret a).
Proof. intros st. now split. Qed.

Lemma keeps_raise {A : Type} (e : exn) : keeps_zone (@raise A e).
Proof. intros st. now split. Qed.

Lemma keeps_lift {A : Type} (o : outcome A) : keeps_zone (lift o).
Proof. intros st. now split. Qed.

Lemma keeps_gets {A : Type} (f : provider -> A) : keeps_zone (gets f).
Proof. intros st. now split. Qed.

Lemma keeps_modify (f : provider -> provider) :
  (forall st, zone (f st) = zone st /\ posts (f st) = posts st) ->
  keeps_zone (modify f).
Proof. intros Hf st. apply Hf. Qed.

(** ** The provider's methods *)

Section ProviderFacts.

Variable env : collaborators.
Variable cfg : options.

(** *** [_close_session] *)

Lemma close_session_eq (st : provider) :
  _close_session cfg st
  = if session_lost cfg st then (Raise AttributeError, count_close st)
    else (Ret (match opt_live_tests cfg with None => true | Some _ => false end),
          closed cfg st).
Proof.
  unfold _close_session, closed, session_lost, session_request.
  destruct (opt_live_tests cfg); [reflexivity|].
  unfold bind, modify, gets, ret, raise. cbn [session count_close].
  now destruct (session st).
Qed.

(** With a session, or without a logout to send, [_close_session] returns. *)
Lemma close_session_open (st : provider) :
  session_lost cfg st = false ->
  _close_session cfg st
  = (Ret (match opt_live_tests cfg with None => true | Some _ => false end),
     closed cfg st).
Proof. intros H. now rewrite close_session_eq, H. Qed.

Lemma close_session_lost (st : provider) :
  session_lost cfg st = true ->
  _close_session cfg st = (Raise AttributeError, count_close st).
Proof. intros H. now rewrite close_session_eq, H. Qed.


Lemma closed_zone (st : provider) : zone (closed cfg st) = zone st.
Proof. unfold closed. now destruct (opt_live_tests cfg). Qed.

Lemma closed_posts (st : provider) : posts (closed cfg st) = posts st.
Proof. unfold closed. now destruct (opt_live_tests cfg). Qed.

Lemma closed_cname (st : provider) : cname (closed cfg st) = cname st.
Proof. unfold closed. now destruct (opt_live_tests cfg). Qed.

Lemma closed_close_calls (st : provider) :
  close_calls (closed cfg st) = S (close_calls st).
Proof. unfold closed. now destruct (opt_live_tests cfg). Qed.

Lemma closes_close_session : closes_by (_close_session cfg) (fun _ => 1).
Proof.
  intros st a st' H. rewrite close_session_eq in H.
  destruct (session_lost cfg st); [discriminate|]. injection H as _ <-.
  rewrite closed_close_calls. lia.
Qed.

Lemma keeps_close_session : keeps_zone (_close_session cfg).
Proof.
  intros st. rewrite close_session_eq.
  destruct (session_lost cfg st); cbn [snd]; [now split|].
  split; [apply closed_zone | apply closed_posts].
Qed.

(** *** [list_records] *)

Lemma list_rdatas_total (rtype rname : pystr) (ttl : Z) (content : option pystr)
    (items : list pystr) :
  forall records, exists records',
    list_rdatas env rtype rname ttl content items records = Ret records'.
Proof.
  induction items as [|rdata rest IH]; intros records; cbn [list_rdatas]; [eauto|].
  destruct (Py.truthy content) eqn:Et; cbn [negb obind].
  - destruct (@wellformed_nonempty env rtype (Py.the content)) as (w & ->).
    { destruct content as [[|x c]|]; cbn in Et |- *; congruence. }
    cbn [obind]. destruct (Py.eqb w rdata); apply IH.
  - apply IH.
Qed.

Lemma list_rrsets_total (cn type name content : option pystr)
    (rrsets : list (pystr * rdataset)) :
  forall records, exists records',
    list_rrsets env cn type name content rrsets records = Ret records'.
Proof.
  induction rrsets as [|[rname rds] rest IH]; intros records; cbn [list_rrsets];
    [eauto|].
  destruct (_ && _); [|apply IH].
  destruct (list_rdatas_total (rds_type rds) rname (rds_ttl rds) content
              (rds_items rds) records) as (records1 & ->).
  cbn [obind]. apply IH.
Qed.

(** Listing never raises. *)
Lemma listing_total (st : provider) (type name content : option pystr) :
  exists records, listing env st type name content = Ret records.
Proof. unfold listing. apply list_rrsets_total. Qed.

(** [list_records] collects the listing, and closes the session when the
    action is [list]: it returns the listing unless that closing fails. *)
Lemma list_records_cases (st : provider) (type name content : option pystr)
    (records : list record) :
  listing env st type name content = Ret records ->
  list_records env cfg type name content st
  = if action_is_list cfg && session_lost cfg st
    then (Raise AttributeError, count_close st)
    else (Ret records, if action_is_list cfg then closed cfg st else st).
Proof.
  unfold listing, list_records. intros H.
  unfold bind at 1. cbn [gets]. unfold bind at 1. cbn [gets].
  unfold bind at 1. unfold lift at 1. rewrite H.
  destruct (action_is_list cfg); cbn [andb].
  - unfold bind at 1. unfold bind at 1. rewrite close_session_eq.
    now destruct (session_lost cfg st).
  - reflexivity.
Qed.

Lemma list_records_eq (st : provider) (type name content : option pystr)
    (records : list record) :
  (action_is_list cfg = true -> session_lost cfg st = false) ->
  listing env st type name content = Ret records ->
  list_records env cfg type name content st
  = (Ret records, if action_is_list cfg then closed cfg st else st).
Proof.
  intros Ha H. rewrite (list_records_cases _ _ _ _ _ H).
  destruct (action_is_list cfg); [now rewrite Ha | reflexivity].
Qed.

(** A listing that returns has returned the records of the zone. *)
Lemma list_records_ret (st st' : provider) (type name content : option pystr)
    (records : list record) :
  list_records env cfg type name content st = (Ret records, st') ->
  listing env st type name content = Ret records
  /\ st' = (if action_is_list cfg then closed cfg st else st).
Proof.
  intros H. destruct (listing_total st type name content) as (records0 & H0).
  rewrite (list_records_cases _ _ _ _ _ H0) in H.
  destruct (action_is_list cfg && session_lost cfg st); [discriminate|].
  injection H as <- <-. now split.
Qed.

Lemma listing_closed (st : provider) (type name content : option pystr) :
  listing env (closed cfg st) type name content = listing env st type name content.
Proof. unfold listing. now rewrite closed_zone, closed_cname. Qed.

Lemma keeps_list_records (type name content : option pystr) :
  keeps_zone (list_records env cfg type name content).
Proof.
  intros st. destruct (listing_total st type name content) as (records & H).
  rewrite (list_records_cases _ _ _ _ _ H).
  destruct (action_is_list cfg); cbn [andb snd]; [|now split].
  destruct (session_lost cfg st); cbn [snd]; [now split|].
  split; [apply closed_zone | apply closed_posts].
Qed.

Lemma closes_list_records (type name content : option pystr) :
  action_is_list cfg = false ->
  closes_by (list_records env cfg type name content) (fun _ => 0).
Proof.
  intros Ha st records st' H.
  destruct (listing_total st type name content) as (records0 & H0).
  rewrite (list_records_cases _ _ _ _ _ H0), Ha in H. cbn [andb] in H.
  injection H as _ <-. lia.
Qed.

(** Every listed record carries an identifier of 7 characters. *)
Lemma list_rdatas_ids (rtype rname : pystr) (ttl : Z) (content : option pystr)
    (items : list pystr) :
  forall records records',
    Forall (fun r => length (r_id r) = 7) records ->
    list_rdatas env rtype rname ttl content items records = Ret records' ->
    Forall (fun r => length (r_id r) = 7) records'.
Proof.
  induction items as [|rdata rest IH]; intros records records' Hall H;
    cbn [list_rdatas] in H.
  - now injection H as <-.
  - destruct (if negb (Py.truthy content) then Ret true
              else w <~ _wellformed_content env rtype (Py.the content) ;;
                   Ret (Py.eqb w rdata)) as [[|]|e]; cbn [obind] in H;
      [| now apply (IH _ _ Hall H) | discriminate].
    refine (IH _ _ _ H). apply Forall_app. split; [exact Hall|].
    constructor; [|constructor]. cbn [r_id]. apply build_identifier_length.
Qed.

Lemma list_rrsets_ids (cn type name content : option pystr)
    (rrsets : list (pystr * rdataset)) :
  forall records records',
    Forall (fun r => length (r_id r) = 7) records ->
    list_rrsets env cn type name content rrsets records = Ret records' ->
    Forall (fun r => length (r_id r) = 7) records'.
Proof.
  induction rrsets as [|[rname rds] rest IH]; intros records records' Hall H;
    cbn [list_rrsets] in H.
  - now injection H as <-.
  - destruct (_ && _); [|now apply (IH _ _ Hall H)].
    destruct (list_rdatas env (rds_type rds) rname (rds_ttl rds) content
                (rds_items rds) records) as [records1|e] eqn:E1;
      cbn [obind] in H; [|discriminate].
    eapply IH; [|exact H]. eapply list_rdatas_ids; eassumption.
Qed.

Lemma listing_ids (st : provider) (type name content : option pystr)
    (records : list record) :
  listing env st type name content = Ret records ->
  Forall (fun r => length (r_id r) = 7) records.
Proof. unfold listing. apply list_rrsets_ids. constructor. Qed.

(** *** [_parse_identifier], hash form *)

Lemma resolve_hash_fold (identifier : pystr) (records : list record) :
  forall acc : record_key,
    (fold_left (match_identifier identifier) records acc = acc
     /\ forall r, In r records -> r_id r <> identifier)
    \/ exists r, In r records /\ r_id r = identifier
                 /\ fold_left (match_identifier identifier) records acc
                    = (Some (r_type r), Some (r_name r ++ str "."), Some (r_content r)).
Proof.
  induction records as [|r0 rest IH]; intros acc; cbn [fold_left].
  - left. split; [reflexivity | intros r []].
  - assert (Hm : match_identifier identifier acc r0
                = if Py.eqb (r_id r0) identifier
                  then (Some (r_type r0), Some (r_name r0 ++ str "."),
                        Some (r_content r0))
                  else acc) by reflexivity.
    rewrite Hm. clear Hm.
    destruct (Py.eqb (r_id r0) identifier) eqn:E0.
    + destruct (IH (Some (r_type r0), Some (r_name r0 ++ str "."),
                    Some (r_content r0))) as [[E _]|(r & Hin & Hid & E)].
      * right. exists r0. split; [now left|].
        split; [now apply PyFacts.eqb_eq | exact E].
      * right. exists r. split; [now right|]. split; assumption.
    + destruct (IH acc) as [[E Hnone]|(r & Hin & Hid & E)].
      * left. split; [exact E|].
        intros r [<-|Hin]; [now apply PyFacts.eqb_neq | now apply Hnone].
      * right. exists r. split; [now right|]. split; assumption.
Qed.

Lemma parse_identifier_hash (identifier : pystr) (st : provider)
    (records : list record) :
  length identifier <= 7 ->
  listing env st None None None = Ret records ->
  _parse_identifier env cfg identifier st
  = if action_is_list cfg && session_lost cfg st
    then (Raise AttributeError, count_close st)
    else (Ret (resolve_hash identifier records),
          if action_is_list cfg then closed cfg st else st).
Proof.
  intros Hlen H. unfold _parse_identifier.
  destruct (Nat.ltb_spec 7 (length identifier)) as [Hlt|_]; [lia|].
  unfold bind. rewrite (list_records_cases _ _ _ _ _ H).
  now destruct (action_is_list cfg && session_lost cfg st).
Qed.

Lemma keeps_parse_identifier (identifier : pystr) :
  keeps_zone (_parse_identifier env cfg identifier).
Proof.
  unfold _parse_identifier. destruct (7 <? length identifier).
  - apply keeps_bind; [apply keeps_lift|]. intros rdtype.
    apply keeps_bind; [apply keeps_lift|]. intros name. apply keeps_ret.
  - apply keeps_bind; [apply keeps_list_records|]. intros records. apply keeps_ret.
Qed.

Lemma closes_parse_identifier (identifier : pystr) :
  action_is_list cfg = false ->
  closes_by (_parse_identifier env cfg identifier) (fun _ => 0).
Proof.
  intros Ha. unfold _parse_identifier. destruct (7 <? length identifier).
  - apply closes_bind_0; [apply closes_lift|]. intros rdtype.
    apply closes_bind_0; [apply closes_lift|]. intros name. now apply closes_ret.
  - apply closes_bind_0; [now apply closes_list_records|]. intros records.
    now apply closes_ret.
Qed.

End ProviderFacts.

(** C9. An identifier of at most 7 characters is never split: the records
    of the zone are listed ([list_records] without filter) and the result is
    the type, the name with a final dot and the content of a listed record
    whose identifier, 7 characters long, is the given one, or three [None]
    when no listed record has it.  The one other end is the listing's own:
    under the action [list] it closes the session, and without a session
    that is an [AttributeError], which [_parse_identifier] passes on. *)
Theorem parse_identifier_hash_form (env : collaborators) (cfg : options)
    (identifier : pystr) (st : provider) :
  length identifier <= 7 ->
  (exists (records : list record) (st' : provider),
     list_records env cfg None None None st = (Ret records, st')
     /\ Forall (fun r => length (r_id r) = 7) records
     /\ (((forall r, In r records -> r_id r <> identifier)
          /\ _parse_identifier env cfg identifier st = (Ret (None, None, None), st'))
         \/ exists r, In r records /\ r_id r = identifier
                      /\ _parse_identifier env cfg identifier st
                         = (Ret (Some (r_type r), Some (r_name r ++ str "."),
                                 Some (r_content r)), st')))
  \/ (action_is_list cfg = true /\ session_lost cfg st = true
      /\ list_records env cfg None None None st
         = (Raise AttributeError, count_close st)
      /\ _parse_identifier env cfg identifier st
         = (Raise AttributeError, count_close st)).
Proof.
  intros Hlen. destruct (listing_total env st None None None) as (records & H).
  pose proof (list_records_cases env cfg st None None None records H) as Hl.
  pose proof (parse_identifier_hash env cfg identifier st records Hlen H) as Hp.
  destruct (action_is_list cfg && session_lost cfg st) eqn:Ec.
  - right. apply andb_true_iff in Ec. destruct Ec as [Ea Es]. now repeat split.
  - left. exists records, (if action_is_list cfg then closed cfg st else st).
    split; [exact Hl|].
    split; [eapply listing_ids; exact H|].
    rewrite Hp. unfold resolve_hash.
    destruct (resolve_hash_fold identifier records (None, None, None))
      as [[E Hnone]|(r & Hin & Hid & E)]; rewrite E.
    + left. now split.
    + right. exists r. now repeat split.
Qed.

Lemma parse_identifier_hash_form_witness :
  (exists (records : list record) (st' : provider),
     list_records (Base.world (str "example.com") Base.no_dns)
       (Base.invocation "delete") None None None (Base.loaded Base.sample_zone)
     = (Ret records, st')
     /\ Forall (fun r => length (r_id r) = 7) records
     /\ (((forall r, In r records -> r_id r <> str "A/x./y")
          /\ _parse_identifier (Base.world (str "example.com") Base.no_dns)
               (Base.invocation "delete") (str "A/x./y") (Base.loaded Base.sample_zone)
             = (Ret (None, None, None), st'))
         \/ exists r, In r records /\ r_id r = str "A/x./y"
                      /\ _parse_identifier (Base.world (str "example.com") Base.no_dns)
                           (Base.invocation "delete") (str "A/x./y")
                           (Base.loaded Base.sample_zone)
                         = (Ret (Some (r_type r), Some (r_name r ++ str "."),
                                 Some (r_content r)), st')))
  \/ (action_is_list (Base.invocation "delete") = true
      /\ session_lost (Base.invocation "delete") (Base.loaded Base.sample_zone) = true
      /\ list_records (Base.world (str "example.com") Base.no_dns)
           (Base.invocation "delete") None None None (Base.loaded Base.sample_zone)
         = (Raise AttributeError, count_close (Base.loaded Base.sample_zone))
      /\ _parse_identifier (Base.world (str "example.com") Base.no_dns)
           (Base.invocation "delete") (str "A/x./y") (Base.loaded Base.sample_zone)
         = (Raise AttributeError, count_close (Base.loaded Base.sample_zone))).
Proof.
  apply (parse_identifier_hash_form
           (Base.world (str "example.com") Base.no_dns) (Base.invocation "delete")
           (str "A/x./y") (Base.loaded Base.sample_zone)).
  vm_compute. lia.
Defined.

(** An identifier that looks like the raw form but is short goes through
    the listing, and finds nothing. *)
Example parse_identifier_short_raw :
  _parse_identifier (Base.world (str "example.com") Base.no_dns)
    (Base.invocation "delete") (str "A/x./y") (Base.loaded Base.sample_zone)
  = (Ret (None, None, None), Base.loaded Base.sample_zone).
Proof. vm_compute. reflexivity. Qed.

Example parse_identifier_hash_example :
  _parse_identifier (Base.world (str "example.com") Base.no_dns)
    (Base.invocation "delete") (str "435c877") (Base.loaded Base.sample_zone)
  = (Ret (Some (str "TXT"), Some (str "_acme-challenge.example.com."),
          Some (str "def456")),
     Base.loaded Base.sample_zone).
Proof. vm_compute. reflexivity. Qed.

(** ** The zone object *)

Module DnsZoneFacts.
Import DnsZone.

Lemma set_node_same (name : pystr) (nd : node) (z : dns_zone) :
  find_node name z = Some nd -> set_node name nd z = z.
Proof.
  induction z as [|[n nd'] z IH]; cbn [find_node set_node]; [discriminate|].
  destruct (Py.eqb n name).
  - now intros [= ->].
  - intros H. now rewrite IH.
Qed.

(** [get_rdataset(..., create=True)] creates nothing when the rdataset is
    there. *)
Lemma touch_existing (name rdtype : pystr) (z : dns_zone) (r : rdataset) :
  get_rdataset name rdtype z = Some r -> touch_rdataset name rdtype z = z.
Proof.
  unfold get_rdataset, touch_rdataset, node_touch.
  destruct (find_node name z) as [nd|] eqn:E; [|discriminate].
  intros ->. now apply set_node_same.
Qed.

End DnsZoneFacts.

Lemma set_records_same (st : provider) (zd : zone_dict) :
  zone st = Some zd -> set_records (z_data zd) st = st.
Proof.
  destruct st as [ns cn se zn cc lo po cl], zd as [i n t d]. cbn.
  now intros ->.
Qed.

Section OperationFacts.

Variable env : collaborators.
Variable cfg : options.

Lemma zone_records_loaded (st : provider) (zd : zone_dict) :
  zone st = Some zd -> zone_records st = (Ret (z_data zd), st).
Proof. unfold zone_records, bind, gets. now intros ->. Qed.

Lemma get_rdataset_create_existing (st : provider) (zd : zone_dict)
    (name rdtype : pystr) (r : rdataset) :
  zone st = Some zd ->
  DnsZone.get_rdataset name rdtype (z_data zd) = Some r ->
  get_rdataset_create name rdtype st = (Ret r, st).
Proof.
  intros Hz Hr. unfold get_rdataset_create.
  erewrite bind_ret by (apply zone_records_loaded; exact Hz).
  unfold bind, modify, ret.
  erewrite DnsZoneFacts.touch_existing by exact Hr. rewrite Hr.
  now erewrite set_records_same by exact Hz.
Qed.

Lemma get_rdataset_create_loaded (st : provider) (zd : zone_dict)
    (name rdtype : pystr) :
  zone st = Some zd ->
  get_rdataset_create name rdtype st
  = (Ret (match DnsZone.get_rdataset name rdtype (z_data zd) with
          | Some r => r
          | None => Rdataset rdtype 0 []
          end),
     set_records (DnsZone.touch_rdataset name rdtype (z_data zd)) st).
Proof.
  intros Hz. unfold get_rdataset_create.
  erewrite bind_ret by (apply zone_records_loaded; exact Hz). reflexivity.
Qed.

Lemma has_rdata_found (type content w : pystr) (items : list pystr) :
  _wellformed_content env type content = Ret w ->
  In w items ->
  has_rdata env type content items = Ret true.
Proof.
  intros Hw. induction items as [|rdata rest IH]; intros Hin; [destruct Hin|].
  cbn [has_rdata]. rewrite Hw. cbn [obind].
  destruct (Py.eqb w rdata) eqn:E; [reflexivity|].
  apply IH. destruct Hin as [<-|Hin]; [|exact Hin].
  rewrite PyFacts.eqb_refl in E. discriminate.
Qed.

End OperationFacts.

(** ** Create *)

(** C4. When the rdataset of the effective owner name and the type already
    holds an rdata whose text is the well-formed content, [create_record]
    closes the session and returns [True]: the zone is as it was, rdata for
    rdata, and nothing was submitted.  The provider is one that has
    authenticated: it has the zone, and the session its logout needs. *)
Theorem create_record_idempotent (env : collaborators) (cfg : options)
    (st : provider) (zd : zone_dict) (type name content w : pystr)
    (rrset : rdataset) :
  zone st = Some zd ->
  session_lost cfg st = false ->
  _wellformed_content env type content = Ret w ->
  DnsZone.get_rdataset (owner_name env (cname st) name) type (z_data zd)
  = Some rrset ->
  In w (rds_items rrset) ->
  create_record env cfg (Some type) (Some name) (Some content) st
  = (Ret true, snd (_close_session cfg st))
  /\ zone (snd (_close_session cfg st)) = zone st
  /\ posts (snd (_close_session cfg st)) = posts st
  /\ close_calls (snd (_close_session cfg st)) = S (close_calls st).
Proof.
  intros Hz Hs Hw Hr Hin. rewrite close_session_open by exact Hs. cbn [snd]. split.
  - unfold create_record.
    erewrite bind_ret by reflexivity. cbv beta zeta.
    erewrite bind_ret by (eapply get_rdataset_create_existing; eassumption).
    erewrite bind_ret
      by (unfold lift; erewrite has_rdata_found by eassumption; reflexivity).
    cbv beta iota.
    erewrite bind_ret by (apply close_session_open; exact Hs).
    reflexivity.
  - split; [apply closed_zone|]. split; [apply closed_posts|].
    apply closed_close_calls.
Qed.

Lemma create_record_idempotent_witness :
  create_record (Base.world (str "example.com") Base.no_dns)
    (Base.invocation "create")
    (Some (str "TXT")) (Some (str "_acme-challenge")) (Some (str "abc123"))
    (Base.loaded Base.sample_zone)
  = (Ret true,
     snd (_close_session (Base.invocation "create") (Base.loaded Base.sample_zone)))
  /\ zone (snd (_close_session (Base.invocation "create")
                  (Base.loaded Base.sample_zone)))
     = zone (Base.loaded Base.sample_zone)
  /\ posts (snd (_close_session (Base.invocation "create")
                   (Base.loaded Base.sample_zone)))
     = posts (Base.loaded Base.sample_zone)
  /\ close_calls (snd (_close_session (Base.invocation "create")
                         (Base.loaded Base.sample_zone)))
     = S (close_calls (Base.loaded Base.sample_zone)).
Proof.
  apply (create_record_idempotent
           (Base.world (str "example.com") Base.no_dns) (Base.invocation "create")
           (Base.loaded Base.sample_zone)
           (Zone 1 (str "example.com") (str "token") Base.sample_zone)
           (str "TXT") (str "_acme-challenge") (str "abc123")
           (Base.quoted "abc123")
           (Rdataset (str "TXT") 300 [Base.quoted "abc123"; Base.quoted "def456"])).
  - reflexivity.
  - reflexivity.
  - vm_compute. reflexivity.
  - vm_compute. reflexivity.
  - left. reflexivity.
Defined.

(** ** Empty content *)

(** With empty content of a quoted or a qualified type, [create_record]
    raises before it closes the session. *)
Lemma create_record_empty_content (env : collaborators) (cfg : options)
    (st : provider) (zd : zone_dict) (type name : pystr) :
  Py.mem type (quoted_types ++ fqdn_types) = true ->
  zone st = Some zd ->
  exists st',
    create_record env cfg (Some type) (Some name) (Some []) st
    = (Raise IndexError, st')
    /\ close_calls st' = close_calls st.
Proof.
  intros Ht Hz. unfold create_record.
  erewrite bind_ret by reflexivity. cbv beta zeta.
  erewrite bind_ret by (apply get_rdataset_create_loaded; exact Hz).
  set (r := match DnsZone.get_rdataset _ _ _ with Some r => r | None => _ end).
  set (st1 := set_records _ st).
  assert (Hcc : close_calls st1 = close_calls st) by reflexivity.
  pose proof (wellformed_empty env type Ht) as Hw.
  destruct (rds_items r) as [|rdata rest] eqn:Ei.
  - erewrite bind_ret by (unfold lift; cbn [has_rdata]; reflexivity).
    cbv beta iota. unfold add_rdata.
    erewrite bind_raise
      by (erewrite bind_raise by (unfold lift; rewrite Hw; reflexivity);
          reflexivity).
    eauto.
  - erewrite bind_raise
      by (unfold lift; cbn [has_rdata]; rewrite Hw; reflexivity).
    eauto.
Qed.

(** C10. For TXT, LOC, CNAME, MX, NS and SRV, [_wellformed_content] raises
    [IndexError] on the empty string and on it alone: non-empty content is
    what it needs, and [create_record] reaches the error with empty content,
    the session still open. *)
Theorem wellformed_content_needs_content (env : collaborators) (t c : pystr) :
  Py.mem t (quoted_types ++ fqdn_types) = true ->
  (_wellformed_content env t c = Raise IndexError <-> c = [])
  /\ (c <> [] -> exists w, _wellformed_content env t c = Ret w)
  /\ (forall cfg st zd name,
        zone st = Some zd ->
        exists st',
          create_record env cfg (Some t) (Some name) (Some []) st
          = (Raise IndexError, st')
          /\ close_calls st' = close_calls st).
Proof.
  intros Ht. split; [|split].
  - split.
    + intros Hr. destruct c as [|x c]; [reflexivity|].
      destruct (@wellformed_nonempty env t (x :: c)) as (w & Hw); [discriminate|].
      congruence.
    + intros ->. now apply wellformed_empty.
  - apply wellformed_nonempty.
  - intros cfg st zd name Hz. now apply create_record_empty_content with (zd := zd).
Qed.

Lemma wellformed_content_needs_content_witness :
  (_wellformed_content (Base.world (str "example.com") Base.no_dns)
     (str "TXT") [] = Raise IndexError <-> @nil ascii = [])
  /\ (@nil ascii <> [] ->
      exists w, _wellformed_content (Base.world (str "example.com") Base.no_dns)
                  (str "TXT") [] = Ret w)
  /\ (forall cfg st zd name,
        zone st = Some zd ->
        exists st',
          create_record (Base.world (str "example.com") Base.no_dns) cfg
            (Some (str "TXT")) (Some name) (Some []) st
          = (Raise IndexError, st')
          /\ close_calls st' = close_calls st).
Proof.
  apply (wellformed_content_needs_content
           (Base.world (str "example.com") Base.no_dns) (str "TXT") []).
  vm_compute. reflexivity.
Defined.

(** ** Delete *)

Section DeleteFacts.

Variable env : collaborators.
Variable cfg : options.



(** An identifier in raw form without ['/'] has no [parts[1]]. *)
Lemma parse_identifier_no_slash (identifier : pystr) (st : provider) :
  7 < length identifier -> ~ In "/"%char identifier ->
  _parse_identifier env cfg identifier st = (Raise IndexError, st).
Proof.
  intros Hlen Hn. unfold _parse_identifier.
  destruct (Nat.ltb_spec 7 (length identifier)) as [_|Hle]; [|lia].
  now rewrite PyFacts.split_without.
Qed.





End DeleteFacts.

(** C5 (the code at the failing inputs).  An identifier of more than 7
    characters without ['/'] is one that [_parse_identifier] cannot resolve,
    and [delete_record] is no benign success on it: [parts[1]] raises
    [IndexError] in the unguarded call, before any lookup, and the session
    is left open. *)
Theorem delete_record_unparsable_identifier (env : collaborators) (cfg : options)
    (identifier : pystr) (type name content : option pystr) (st : provider) :
  7 < length identifier -> ~ In "/"%char identifier ->
  delete_record env cfg (Some identifier) type name content st
  = (Raise IndexError, st).
Proof.
  intros Hlen Hn. unfold delete_record, delete_arguments.
  assert (Ht : Py.truthy (Some identifier) = true).
  { destruct identifier; [cbn in Hlen; lia | reflexivity]. }
  rewrite Ht. cbn [Py.the].
  erewrite bind_raise; [reflexivity|].
  erewrite bind_raise; [reflexivity|].
  now apply parse_identifier_no_slash.
Qed.

Lemma delete_record_unparsable_identifier_witness :
  delete_record (Base.world (str "example.com") Base.no_dns)
    (Base.invocation "delete") (Some (str "nonexistent")) None None None
    (Base.loaded Base.sample_zone)
  = (Raise IndexError, Base.loaded Base.sample_zone).
Proof.
  apply (delete_record_unparsable_identifier
           (Base.world (str "example.com") Base.no_dns) (Base.invocation "delete")
           (str "nonexistent") None None None (Base.loaded Base.sample_zone)).
  - vm_compute. lia.
  - cbn. intros H. repeat (destruct H as [H|H]; [discriminate|]). exact H.
Defined.



Example delete_record_no_match_example :
  delete_record (Base.world (str "example.com") Base.no_dns)
    (Base.invocation "delete")
    None (Some (str "TXT")) (Some (str "_acme-challenge")) (Some (str "other"))
    (Base.loaded Base.sample_zone)
  = (Ret true,
     snd (_close_session (Base.invocation "delete") (Base.loaded Base.sample_zone))).
Proof. vm_compute. reflexivity. Qed.

(** ** Update *)

(** C6. Without identifier and without content, [update_record] returns
    [False] at once, whatever the lookup of the type and the name would
    match, several distinct rdatas included: the session is closed, no
    record is replaced or removed and nothing is submitted.  The provider
    is one that has the session its logout needs. *)
Theorem update_record_without_content (env : collaborators) (cfg : options)
    (st : provider) (identifier type name content : option pystr) :
  session_lost cfg st = false ->
  Py.truthy identifier = false ->
  Py.truthy type = true ->
  Py.truthy name = true ->
  Py.truthy content = false ->
  update_record env cfg identifier type name content st
  = (Ret false, snd (_close_session cfg st))
  /\ zone (snd (_close_session cfg st)) = zone st
  /\ posts (snd (_close_session cfg st)) = posts st.
Proof.
  intros Hs Hi Ht Hn Hc. rewrite close_session_open by exact Hs. cbn [snd]. split.
  - unfold update_record, update_arguments. rewrite Hi, Ht, Hn, Hc. cbn [andb].
    erewrite bind_ret
      by (erewrite bind_ret by (apply close_session_open; exact Hs); reflexivity).
    reflexivity.
  - split; [apply closed_zone | apply closed_posts].
Qed.

Lemma update_record_without_content_witness :
  update_record (Base.world (str "example.com") Base.no_dns)
    (Base.invocation "update")
    None (Some (str "TXT")) (Some (str "_acme-challenge")) None
    (Base.loaded Base.sample_zone)
  = (Ret false,
     snd (_close_session (Base.invocation "update") (Base.loaded Base.sample_zone)))
  /\ zone (snd (_close_session (Base.invocation "update")
                  (Base.loaded Base.sample_zone)))
     = zone (Base.loaded Base.sample_zone)
  /\ posts (snd (_close_session (Base.invocation "update")
                   (Base.loaded Base.sample_zone)))
     = posts (Base.loaded Base.sample_zone).
Proof.
  apply (update_record_without_content
           (Base.world (str "example.com") Base.no_dns) (Base.invocation "update")
           (Base.loaded Base.sample_zone)
           None (Some (str "TXT")) (Some (str "_acme-challenge")) None);
    reflexivity.
Defined.

(** *** The ambiguous lookup *)

Section UpdateFacts.

Variable env : collaborators.
Variable cfg : options.




End UpdateFacts.

(** An update of the TXT records of a name that has two of them, with
    nothing to choose between them. *)
Example update_record_ambiguous_example :
  update_record (Base.world (str "example.com") Base.no_dns) (Base.invocation "update")
    None (Some (str "TXT")) (Some (str "_acme-challenge")) (Some (str "new"))
    (Base.loaded Base.sample_zone)
  = (Ret false,
     snd (_close_session (Base.invocation "update") (Base.loaded Base.sample_zone))).
Proof. vm_compute. reflexivity. Qed.

(** The identifier chooses: the rdata is replaced and the zone submitted. *)
Example update_record_example :
  update_record (Base.world (str "example.com") Base.no_dns) (Base.invocation "update")
    (Some (str "855a488")) None None (Some (str "new"))
    (Base.loaded Base.sample_zone)
  = (Ret true,
     let z := [ (str "_acme-challenge.example.com.",
                 [Rdataset (str "TXT") 300 [Base.quoted "def456"; Base.quoted "new"]]);
                (str "www.example.com.",
                 [Rdataset (str "A") 3600 [str "192.0.2.1"]]) ] in
     Provider [] None false (Some (Zone 1 (str "example.com") (str "token") z))
              1 1 [z] 30).
Proof. vm_compute. reflexivity. Qed.

(** ** Closing the session *)

Create HintDb closes.

#[export] Hint Resolve closes_lift closes_gets closes_raise : closes.

Ltac closes_bind0 :=
  apply closes_bind_0; [solve [eauto with closes] | intros ?].

Section CloseFacts.

Variable env : collaborators.
Variable cfg : options.

Lemma closes_close_ret {B : Type} (b : B) (h : B -> nat) :
  h b = 1 -> closes_by (_close_session cfg ;; ret b) h.
Proof.
  intros Hb st b' st' H. apply bind_returns in H. destruct H as (a & st1 & H1 & H2).
  unfold ret in H2. inversion H2; subst.
  rewrite (closes_close_session cfg _ _ _ H1), Hb. lia.
Qed.

Lemma closes_close_raise {B : Type} (e : exn) (h : B -> nat) :
  closes_by (_close_session cfg ;; raise e) h.
Proof.
  intros st b st' H. apply bind_returns in H. destruct H as (a & st1 & H1 & H2).
  discriminate.
Qed.

Lemma closes_sleep (n : nat) : closes_by (sleep n) (fun _ => 0).
Proof. apply closes_modify. reflexivity. Qed.

Lemma closes_set_records (z : dns_zone) :
  closes_by (modify (set_records z)) (fun _ => 0).
Proof. apply closes_modify. reflexivity. Qed.

Lemma closes_zone_records : closes_by zone_records (fun _ => 0).
Proof.
  unfold zone_records. closes_bind0. destruct a; [now apply closes_ret | apply closes_raise].
Qed.

Hint Resolve closes_sleep closes_set_records closes_zone_records : closes.

Lemma closes_get_rdataset_create (name rdtype : pystr) :
  closes_by (get_rdataset_create name rdtype) (fun _ => 0).
Proof.
  unfold get_rdataset_create. closes_bind0. closes_bind0. now apply closes_ret.
Qed.

Lemma closes_get_rdataset_iter (name rdtype : pystr) :
  closes_by (get_rdataset_iter name rdtype) (fun _ => 0).
Proof.
  unfold get_rdataset_iter. closes_bind0.
  destruct (DnsZone.get_rdataset name rdtype a);
    [now apply closes_ret | apply closes_raise].
Qed.

Lemma closes_add_rdata (owner type content : pystr) (rrset : rdataset) :
  closes_by (add_rdata env cfg owner type content rrset) (fun _ => 0).
Proof. unfold add_rdata. do 3 closes_bind0. auto with closes. Qed.

Lemma closes_session_request : closes_by session_request (fun _ => 0).
Proof.
  unfold session_request. closes_bind0.
  destruct a; [now apply closes_ret | apply closes_raise].
Qed.

Lemma closes_post_zone : closes_by (_post_zone env cfg) (fun _ => 0).
Proof.
  unfold _post_zone.
  apply closes_bind_0; [apply closes_session_request | intros _].
  closes_bind0. destruct a as [zd|]; [|apply closes_raise].
  apply closes_bind_0; [apply closes_modify; reflexivity | intros _].
  closes_bind0. destruct (Py.contains a _); [|now apply closes_ret].
  apply closes_bind_0; [|intros _; now apply closes_ret].
  destruct (negb _); [apply closes_sleep | now apply closes_ret].
Qed.

Lemma closes_propagated_loop (remaining : nat) (rdtype name content : pystr) :
  closes_by (propagated_loop env remaining rdtype name content) (fun _ => 0).
Proof.
  induction remaining as [|remaining IH]; cbn [propagated_loop];
    [now apply closes_ret|].
  do 4 closes_bind0. destruct a2; [now apply closes_ret|].
  apply closes_bind_0; [apply closes_sleep | intros _; exact IH].
Qed.

Lemma closes_propagated (rdtype name content : pystr) :
  closes_by (_propagated env cfg rdtype name content) (fun _ => 0).
Proof.
  unfold _propagated. destruct (propagated_is_yes cfg);
    [apply closes_propagated_loop | now apply closes_ret].
Qed.

Hint Resolve closes_get_rdataset_create closes_get_rdataset_iter closes_add_rdata
  closes_post_zone closes_propagated : closes.

(** The end both [create_record] and [update_record] share: submission,
    propagation, one closing. *)
Lemma closes_submit (type name content : pystr) :
  closes_by (synced_change <- _post_zone env cfg ;;
             (if synced_change
              then _propagated env cfg type name content ;; ret tt
              else ret tt) ;;
             _close_session cfg ;;
             ret synced_change) (fun _ => 1).
Proof.
  closes_bind0. apply closes_bind_0; [|intros _; now apply closes_close_ret].
  destruct a; [|now apply closes_ret].
  closes_bind0. now apply closes_ret.
Qed.

Lemma closes_create_record (type name content : option pystr) :
  closes_by (create_record env cfg type name content) (fun _ => 1).
Proof.
  unfold create_record.
  destruct type as [type|]; [|now apply closes_close_ret].
  destruct name as [name|]; [|now apply closes_close_ret].
  destruct content as [content|]; [|now apply closes_close_ret].
  do 3 closes_bind0. destruct a1; [now apply closes_close_ret|].
  closes_bind0. apply closes_submit.
Qed.

Lemma closes_update_delete_loop (delete_content : option pystr)
    (delete_records : list record) :
  closes_by (update_delete_loop env cfg delete_content delete_records)
            (fun returned => match returned with Some _ => 1 | None => 0 end).
Proof.
  induction delete_records as [|record rest IH]; cbn [update_delete_loop];
    [now apply closes_ret|].
  do 2 closes_bind0. destruct a0 as [|rdata keep].
  - do 2 closes_bind0. exact IH.
  - destruct (Py.is_none delete_content); [now apply closes_close_ret|].
    do 3 closes_bind0. exact IH.
Qed.

Lemma closes_delete_loop (delete_records : list record) :
  closes_by (delete_loop env delete_records) (fun _ => 0).
Proof.
  induction delete_records as [|record rest IH]; cbn [delete_loop];
    [now apply closes_ret|].
  do 2 closes_bind0. destruct a0 as [|rdata keep].
  - do 2 closes_bind0. exact IH.
  - do 3 closes_bind0. exact IH.
Qed.

Section NotListing.

Hypothesis not_list : action_is_list cfg = false.

Lemma closes_update_arguments (identifier type name content : option pystr) :
  closes_by (update_arguments env cfg identifier type name content)
            (fun arguments => match arguments with Some _ => 0 | None => 1 end).
Proof.
  unfold update_arguments. destruct (Py.truthy identifier).
  - apply closes_bind_0; [now apply closes_parse_identifier|].
    intros [[delete_type delete_name] delete_content].
    destruct (_ && _); [now apply closes_ret | now apply closes_close_ret].
  - destruct (_ && _); [now apply closes_ret | now apply closes_close_ret].
Qed.

Lemma closes_delete_arguments (identifier type name content : option pystr) :
  closes_by (delete_arguments env cfg identifier type name content)
            (fun arguments => match arguments with Some _ => 0 | None => 1 end).
Proof.
  unfold delete_arguments. destruct (Py.truthy identifier); [|now apply closes_ret].
  apply closes_bind_0; [now apply closes_parse_identifier|].
  intros [[t n] c].
  destruct (_ || _); [now apply closes_close_ret | now apply closes_ret].
Qed.

Lemma closes_update_record (identifier type name content : option pystr) :
  closes_by (update_record env cfg identifier type name content) (fun _ => 1).
Proof.
  unfold update_record.
  eapply closes_bind with
    (g := fun arguments _ => match arguments with Some _ => 1 | None => 0 end);
    [apply closes_update_arguments | | intros [a|] b; reflexivity].
  intros [[[[type' name'] content'] [[delete_type delete_name] delete_content]]|];
    [|now apply closes_ret].
  apply closes_bind_0; [now apply closes_list_records|].
  intros [|record rest]; [now apply closes_close_ret|].
  eapply closes_bind with
    (g := fun returned _ => match returned with Some _ => 0 | None => 1 end);
    [apply closes_update_delete_loop | | intros [a|] b; reflexivity].
  intros [b|]; [now apply closes_ret|].
  cbv zeta. do 3 closes_bind0.
  apply closes_bind_0; [|intros _; apply closes_submit].
  destruct a1; [now apply closes_ret | apply closes_add_rdata].
Qed.

Lemma closes_delete_record (identifier type name content : option pystr) :
  closes_by (delete_record env cfg identifier type name content) (fun _ => 1).
Proof.
  unfold delete_record.
  eapply closes_bind with
    (g := fun arguments _ => match arguments with Some _ => 1 | None => 0 end);
    [apply closes_delete_arguments | | intros [a|] b; reflexivity].
  intros [[[type' name'] content']|]; [|now apply closes_ret].
  apply closes_bind_0; [now apply closes_list_records|].
  intros [|record rest]; [now apply closes_close_ret|].
  apply closes_bind_0; [apply closes_delete_loop | intros _].
  closes_bind0. now apply closes_close_ret.
Qed.

End NotListing.

End CloseFacts.

(** C8.  Whenever [create_record], [update_record] or [delete_record]
    returns, on whichever path, [_close_session] has been invoked exactly
    once since the operation started.  The operations are taken as the
    client dispatches them: [update_record] and [delete_record] run under
    the actions [update] and [delete], not under [list], the one action
    under which the listing they start with closes the session itself. *)
Theorem close_session_once (env : collaborators) (cfg : options)
    (op : operation) (st st' : provider) (b : bool) :
  (lists_records op = true -> action_is_list cfg = false) ->
  run env cfg op st = (Ret b, st') ->
  close_calls st' = S (close_calls st).
Proof.
  intros Ha H. rewrite <- Nat.add_1_r.
  destruct op as [t n c|i t n c|i t n c]; cbn [run lists_records] in *.
  - exact (closes_create_record env cfg t n c st b st' H).
  - exact (closes_update_record env cfg (Ha eq_refl) i t n c st b st' H).
  - exact (closes_delete_record env cfg (Ha eq_refl) i t n c st b st' H).
Qed.

Lemma close_session_once_witness :
  close_calls
    (snd (run (Base.world (str "example.com") Base.no_dns) (Base.invocation "delete")
            (Delete None (Some (str "TXT")) (Some (str "_acme-challenge"))
                    (Some (str "abc123")))
            (Base.loaded Base.sample_zone)))
  = S (close_calls (Base.loaded Base.sample_zone)).
Proof.
  apply (close_session_once
           (Base.world (str "example.com") Base.no_dns) (Base.invocation "delete")
           (Delete None (Some (str "TXT")) (Some (str "_acme-challenge"))
                   (Some (str "abc123")))
           (Base.loaded Base.sample_zone) _ true).
  - intros _. reflexivity.
  - vm_compute. reflexivity.
Defined.

(** Were [delete_record] run under the action [list], which the client
    does not do, the listing would log out and the closing of
    [delete_record] would find no session; in a live test, where nothing is
    logged out, [_close_session] would be invoked twice. *)
Example delete_record_under_list :
  run (Base.world (str "example.com") Base.no_dns) (Base.invocation "list")
    (Delete None (Some (str "TXT")) (Some (str "_acme-challenge"))
            (Some (str "other")))
    (Base.loaded Base.sample_zone)
  = (Raise AttributeError,
     Provider [] None false
       (Some (Zone 1 (str "example.com") (str "token") Base.sample_zone))
       2 1 [] 0).
Proof. vm_compute. reflexivity. Qed.

Example delete_record_under_list_live_test :
  run (Base.world (str "example.com") Base.no_dns) (Base.live_test "list")
    (Delete None (Some (str "TXT")) (Some (str "_acme-challenge"))
            (Some (str "other")))
    (Base.loaded Base.sample_zone)
  = (Ret true,
     Provider [] None true
       (Some (Zone 1 (str "example.com") (str "token") Base.sample_zone))
       2 0 [] 0).
Proof. vm_compute. reflexivity. Qed.

(** Deleting one of the two TXT rdatas leaves the other, submits the zone
    and closes the session once. *)
Example delete_record_example :
  delete_record (Base.world (str "example.com") Base.no_dns) (Base.invocation "delete")
    (Some (str "TXT/_acme-challenge.example.com./abc123")) None None None
    (Base.loaded Base.sample_zone)
  = (Ret true,
     let z := [ (str "_acme-challenge.example.com.",
                 [Rdataset (str "TXT") 300 [Base.quoted "def456"]]);
                (str "www.example.com.",
                 [Rdataset (str "A") 3600 [str "192.0.2.1"]]) ] in
     Provider [] None false (Some (Zone 1 (str "example.com") (str "token") z))
              1 1 [z] 30).
Proof. vm_compute. reflexivity. Qed.

(** ** The CNAME walk *)

Section CnameFacts.

Variable env : collaborators.
Variable cfg : options.

Lemma cname_loop_step (fuel concat : nat) (zone name : pystr)
    (nameservers : list pystr) (cn : option pystr) (st : provider) :
  concat < max_concats ->
  cname_loop env cfg (S fuel) concat zone name nameservers cn st
  = let qname := if Py.truthy cn then Py.the cn else name in
    let zn := _dns env (clock st) zone qname in
    match cname_hop env (clock st) name cn with
    | rdata :: _ =>
        cname_loop env cfg fuel (S concat) (fst zn) name (snd zn) (Some rdata) st
    | [] => (Ret (Some (fst zn, snd zn, cn)), st)
    end.
Proof.
  intros Hlt. cbn [cname_loop].
  destruct (Nat.leb_spec max_concats concat); [lia|].
  unfold bind at 1. cbn [gets]. unfold cname_hop. cbv zeta.
  now destruct (_dns_lookup env (clock st) _ (str "CNAME") []).
Qed.

Lemma cname_loop_limit (fuel concat : nat) (zone name : pystr)
    (nameservers : list pystr) (cn : option pystr) (st : provider) :
  max_concats <= concat ->
  cname_loop env cfg (S fuel) concat zone name nameservers cn st
  = refused cfg st.
Proof.
  intros Hge. cbn [cname_loop].
  destruct (Nat.leb_spec max_concats concat); [|lia].
  unfold bind, refused. rewrite close_session_eq.
  now destruct (session_lost cfg st).
Qed.

Lemma refused_raises {A : Type} (st st' : provider) (o : outcome A) :
  refused cfg st = (o, st') ->
  (o = Raise AssertionError \/ o = Raise AttributeError)
  /\ close_calls st' = S (close_calls st).
Proof.
  unfold refused. destruct (session_lost cfg st); intros [= <- <-].
  - split; [now right | reflexivity].
  - split; [now left | apply closed_close_calls].
Qed.

(** A chain that ends before the limit is walked to its end. *)
Lemma cname_loop_resolves (k : nat) :
  forall (fuel concat : nat) (zone name : pystr) (nameservers : list pystr)
         (cn tip : option pystr) (st : provider),
    cname_chain env (clock st) name k cn = Some tip ->
    cname_hop env (clock st) name tip = [] ->
    concat + k < max_concats -> k < fuel ->
    exists zone' nameservers',
      cname_loop env cfg fuel concat zone name nameservers cn st
      = (Ret (Some (zone', nameservers', tip)), st).
Proof.
  induction k as [|k IH]; intros fuel concat zone name nameservers cn tip st
    Hchain Hend Hlim Hfuel;
    (destruct fuel as [|fuel]; [lia|]); rewrite cname_loop_step by lia;
    cbn [cname_chain] in Hchain; cbv zeta.
  - injection Hchain as ->. rewrite Hend. eauto.
  - destruct (cname_hop env (clock st) name cn) as [|rdata rest]; [discriminate|].
    apply IH; [assumption | assumption | lia | lia].
Qed.

(** A chain that reaches the limit makes the walk fail, whatever follows. *)
Lemma cname_loop_exceeds (k : nat) :
  forall (fuel concat : nat) (zone name : pystr) (nameservers : list pystr)
         (cn tip : option pystr) (st : provider),
    cname_chain env (clock st) name k cn = Some tip ->
    concat + k = max_concats -> k < fuel ->
    cname_loop env cfg fuel concat zone name nameservers cn st
    = refused cfg st.
Proof.
  induction k as [|k IH]; intros fuel concat zone name nameservers cn tip st
    Hchain Hlim Hfuel; (destruct fuel as [|fuel]; [lia|]).
  - apply cname_loop_limit. lia.
  - rewrite cname_loop_step by lia. cbn [cname_chain] in Hchain. cbv zeta.
    destruct (cname_hop env (clock st) name cn) as [|rdata rest]; [discriminate|].
    apply IH with (tip := tip); [assumption | lia | lia].
Qed.

(** A walk that returns has reached the end of a chain shorter than the
    limit. *)
Lemma cname_loop_returns (name : pystr) (fuel : nat) :
  forall (concat : nat) (zone : pystr) (nameservers : list pystr)
         (cn : option pystr) (st st' : provider)
         (zone' : pystr) (nameservers' : list pystr) (tip : option pystr),
    cname_loop env cfg fuel concat zone name nameservers cn st
    = (Ret (Some (zone', nameservers', tip)), st') ->
    st' = st
    /\ exists k, concat + k < max_concats
                 /\ cname_chain env (clock st) name k cn = Some tip
                 /\ cname_hop env (clock st) name tip = [].
Proof.
  induction fuel as [|fuel IH];
    intros concat zone nameservers cn st st' zone' nameservers' tip H;
    [discriminate|].
  destruct (Nat.le_gt_cases max_concats concat) as [Hge|Hlt].
  - rewrite cname_loop_limit in H by assumption.
    destruct (refused_raises _ _ _ H) as [[E|E] _]; discriminate.
  - rewrite cname_loop_step in H by assumption. cbv zeta in H.
    destruct (cname_hop env (clock st) name cn) as [|rdata rest] eqn:Ehop.
    + injection H as _ _ <- <-. split; [reflexivity|].
      exists 0. split; [lia|]. split; [reflexivity | exact Ehop].
    + destruct (IH _ _ _ _ _ _ _ _ _ H) as (-> & k & Hk & Hchain & Hend).
      split; [reflexivity|]. exists (S k). split; [lia|].
      split; [|exact Hend]. cbn [cname_chain]. now rewrite Ehop.
Qed.

(** A walk that raises has followed as many hops as the limit allows. *)
Lemma cname_loop_raises (name : pystr) (fuel : nat) :
  forall (concat : nat) (zone : pystr) (nameservers : list pystr)
         (cn : option pystr) (st st' : provider) (e : exn),
    concat <= max_concats ->
    cname_loop env cfg fuel concat zone name nameservers cn st = (Raise e, st') ->
    (Raise e, st') = refused (A := option (pystr * list pystr * option pystr)) cfg st
    /\ exists tip, cname_chain env (clock st) name (max_concats - concat) cn = Some tip.
Proof.
  induction fuel as [|fuel IH]; intros concat zone nameservers cn st st' e Hle H;
    [discriminate|].
  destruct (Nat.le_gt_cases max_concats concat) as [Hge|Hlt].
  - rewrite cname_loop_limit in H by assumption.
    split; [now symmetry|]. exists cn.
    replace (max_concats - concat) with 0 by lia. reflexivity.
  - rewrite cname_loop_step in H by assumption. cbv zeta in H.
    destruct (cname_hop env (clock st) name cn) as [|rdata rest] eqn:Ehop;
      [discriminate|].
    apply IH in H; [|lia]. destruct H as (E & tip & Hchain).
    split; [exact E|]. exists tip.
    replace (max_concats - concat) with (S (max_concats - S concat)) by lia.
    cbn [cname_chain]. now rewrite Ehop.
Qed.

(** The fuel [_dns_cname] gives the loop never runs out. *)
Lemma cname_loop_fuel (fuel : nat) :
  forall (concat : nat) (zone name : pystr) (nameservers : list pystr)
         (cn : option pystr) (st : provider),
    concat <= max_concats -> max_concats < concat + fuel ->
    fst (cname_loop env cfg fuel concat zone name nameservers cn st) <> Ret None.
Proof.
  induction fuel as [|fuel IH]; intros concat zone name nameservers cn st Hle Hfuel;
    [lia|].
  destruct (Nat.le_gt_cases max_concats concat) as [Hge|Hlt].
  - rewrite cname_loop_limit by assumption. unfold refused.
    destruct (session_lost cfg st); discriminate.
  - rewrite cname_loop_step by assumption. cbv zeta.
    destruct (cname_hop env (clock st) name cn) as [|rdata rest]; [discriminate|].
    apply IH; lia.
Qed.

Lemma dns_cname_total (zone : pystr) (name : option pystr) (concatenate : bool)
    (st : provider) :
  fst (_dns_cname env cfg zone name concatenate st) <> Ret None.
Proof.
  unfold _dns_cname. destruct concatenate; cbn [negb].
  - destruct name as [name|]; [|discriminate]. apply cname_loop_fuel; lia.
  - discriminate.
Qed.

(** What the walk does with a chain of [k] hops: it returns the tip when
    the chain ends there and [k] is below the limit, and fails when [k] is
    the limit. *)
Lemma dns_cname_chain (zone name : pystr) (st : provider) (k : nat)
    (tip : option pystr) :
  cname_chain env (clock st) (_fqdn_name env name) k None = Some tip ->
  (k < max_concats ->
   cname_hop env (clock st) (_fqdn_name env name) tip = [] ->
   exists zone' nameservers',
     _dns_cname env cfg zone (Some name) true st
     = (Ret (Some (zone', nameservers', tip)), st))
  /\ (k = max_concats ->
      _dns_cname env cfg zone (Some name) true st = refused cfg st).
Proof.
  intros Hchain. unfold _dns_cname. cbn [negb]. split.
  - intros Hlt Hend. eapply cname_loop_resolves; try eassumption; lia.
  - intros ->. eapply cname_loop_exceeds; try eassumption; lia.
Qed.

(** Conversely, the walk returns only the tip of a chain of fewer hops
    than the limit, and raises only on a chain of that many hops. *)
Lemma dns_cname_returns (zone name : pystr) (st st' : provider)
    (zone' : pystr) (nameservers' : list pystr) (tip : option pystr) :
  _dns_cname env cfg zone (Some name) true st
  = (Ret (Some (zone', nameservers', tip)), st') ->
  st' = st
  /\ exists k, k < max_concats
               /\ cname_chain env (clock st) (_fqdn_name env name) k None = Some tip
               /\ cname_hop env (clock st) (_fqdn_name env name) tip = [].
Proof.
  unfold _dns_cname. cbn [negb]. intros H.
  apply cname_loop_returns in H. destruct H as (-> & k & Hk & Hchain & Hend).
  split; [reflexivity|]. exists k. now repeat split.
Qed.

Lemma dns_cname_raises (zone name : pystr) (st st' : provider) (e : exn) :
  _dns_cname env cfg zone (Some name) true st = (Raise e, st') ->
  (Raise e, st') = refused (A := option (pystr * list pystr * option pystr)) cfg st
  /\ exists tip,
       cname_chain env (clock st) (_fqdn_name env name) max_concats None = Some tip.
Proof.
  unfold _dns_cname. cbn [negb]. intros H.
  apply cname_loop_raises in H; [|lia].
  now rewrite Nat.sub_0_r in H.
Qed.

End CnameFacts.

(** C7 (the code at the failing input).  With concatenation enabled and a
    chain of exactly 10 CNAME records, [h00 -> h01 -> ... -> h10] where
    [h10] has no CNAME, the walk does not end with the tip [h10]: the guard
    [concat >= max_concats] refuses the chain once 10 records have been
    followed.  It then calls [_close_session], and as [authenticate] walks
    before it opens the session, the logout finds none: the error is
    [AttributeError], and [AssertionError] only in a live test, where
    nothing is logged out.  A chain of 9 is walked to its tip [h09]. *)
Theorem dns_cname_ten_hops :
  cname_chain (Base.world (str "example.com") (Base.cname_dns (Base.hops 10)))
    0 (Base.hop_name 0) 10 None = Some (Some (Base.hop_name 10))
  /\ cname_hop (Base.world (str "example.com") (Base.cname_dns (Base.hops 10)))
       0 (Base.hop_name 0) (Some (Base.hop_name 10)) = []
  /\ _dns_cname (Base.world (str "example.com") (Base.cname_dns (Base.hops 10)))
       (Base.invocation "create") (str "example.com") (Some (str "h00")) true
       Base.fresh
     = (Raise AttributeError, count_close Base.fresh)
  /\ _dns_cname (Base.world (str "example.com") (Base.cname_dns (Base.hops 10)))
       (Base.live_test "create") (str "example.com") (Some (str "h00")) true
       Base.fresh
     = (Raise AssertionError, count_close Base.fresh)
  /\ _dns_cname (Base.world (str "example.com") (Base.cname_dns (Base.hops 9)))
       (Base.invocation "create") (str "example.com") (Some (str "h00")) true
       Base.fresh
     = (Ret (Some (str "example.com", [], Some (Base.hop_name 9))), Base.fresh).
Proof. repeat split; vm_compute; reflexivity. Qed.

(** ** Examples *)

(** Creation in an empty zone, then a listing. *)
Example create_record_example :
  create_record (Base.world (str "example.com") Base.no_dns) (Base.invocation "create")
    (Some (str "TXT")) (Some (str "_acme-challenge.example.com")) (Some (str "abc123"))
    (Base.loaded [])
  = (Ret true,
     let z := [ (str "_acme-challenge.example.com.",
                 [Rdataset (str "TXT") 3600 [Base.quoted "abc123"]]) ] in
     Provider [] None false (Some (Zone 1 (str "example.com") (str "token") z))
              1 1 [z] 30).
Proof. vm_compute. reflexivity. Qed.

Example list_records_example :
  listing (Base.world (str "example.com") Base.no_dns)
    (Base.loaded [ (str "_acme-challenge.example.com.",
                    [Rdataset (str "TXT") 3600 [Base.quoted "abc123"]]) ])
    (Some (str "TXT")) None None
  = Ret [ Record_ (str "TXT") (str "_acme-challenge.example.com") 3600
                  (str "abc123") (str "855a488") ].
Proof. vm_compute. reflexivity. Qed.

(** Characters above U+007F take two bytes. *)
Example build_identifier_latin1 :
  _build_identifier [ascii_of_nat 233] (str "x") [ascii_of_nat 255] = str "4f026a5".
Proof. vm_compute. reflexivity. Qed.


(** * Part III: further facts *)

(** ** IdentifierCodec: round trips *)

(** X1. The raw form is read back: when neither the type nor the name holds
    a ['/'] and the whole is longer than 7 characters, [_parse_identifier]
    of [type/name/content] is the three strings, whatever ['/'] the content
    holds, and the provider is left as it was. *)
Theorem parse_identifier_raw_round_trip (env : collaborators) (cfg : options)
    (rdtype name content : pystr) (st : provider) :
  ~ In "/"%char rdtype ->
  ~ In "/"%char name ->
  7 < length (rdtype ++ str "/" ++ name ++ str "/" ++ content) ->
  _parse_identifier env cfg (rdtype ++ str "/" ++ name ++ str "/" ++ content) st
  = (Ret (Some rdtype, Some name, Some content), st).
Proof.
  intros Ht Hn Hlen. unfold _parse_identifier.
  destruct (Nat.ltb_spec 7 (length (rdtype ++ str "/" ++ name ++ str "/" ++ content)))
    as [_|Hle]; [|lia].
  change (str "/") with ["/"%char]. cbn [app].
  rewrite PyFacts.split_first by assumption.
  rewrite PyFacts.split_first by assumption.
  cbn [skipn]. rewrite PyFacts.join_split. reflexivity.
Qed.

Lemma parse_identifier_raw_round_trip_witness :
  _parse_identifier (Base.world (str "example.com") Base.no_dns)
    (Base.invocation "delete")
    (str "SRV" ++ str "/" ++ str "example.com." ++ str "/"
     ++ str "0 0 443 a/b.example.com.")
    (Base.loaded Base.sample_zone)
  = (Ret (Some (str "SRV"), Some (str "example.com."),
          Some (str "0 0 443 a/b.example.com.")),
     Base.loaded Base.sample_zone).
Proof.
  apply (parse_identifier_raw_round_trip
           (Base.world (str "example.com") Base.no_dns) (Base.invocation "delete")
           (str "SRV") (str "example.com.") (str "0 0 443 a/b.example.com.")
           (Base.loaded Base.sample_zone)).
  - vm_compute. intuition discriminate.
  - vm_compute. intuition discriminate.
  - vm_compute. lia.
Defined.

Lemma count_zero_not_in (c : ascii) (s : pystr) : Py.count c s = 0 -> ~ In c s.
Proof.
  induction s as [|x s IH]; intros Hc Hin; [destruct Hin|].
  rewrite PyFacts.count_cons in Hc. destruct Hin as [->|Hin].
  - rewrite Ascii.eqb_refl in Hc. discriminate.
  - apply IH; [|exact Hin]. destruct (Ascii.eqb c x); [discriminate | exact Hc].
Qed.

(** X2. The raw form with too few ['/']: an identifier longer than 7
    characters without ['/'] makes [_parse_identifier] raise [IndexError]
    ([parts[1]]); with exactly one ['/'] the content comes out as the empty
    string, not as [None], so that the identifier stands for every content. *)
Theorem parse_identifier_raw_few_slashes (env : collaborators) (cfg : options)
    (identifier : pystr) (st : provider) :
  7 < length identifier ->
  Py.count "/"%char identifier < 2 ->
  (~ In "/"%char identifier
   /\ _parse_identifier env cfg identifier st = (Raise IndexError, st))
  \/ exists rdtype name : pystr,
       identifier = rdtype ++ str "/" ++ name
       /\ ~ In "/"%char rdtype /\ ~ In "/"%char name
       /\ _parse_identifier env cfg identifier st
          = (Ret (Some rdtype, Some name, Some []), st).
Proof.
  intros Hlen Hcount. unfold _parse_identifier.
  destruct (Nat.ltb_spec 7 (length identifier)) as [_|Hle]; [|lia].
  destruct (Py.count "/"%char identifier) as [|[|k]] eqn:Ec; [| |lia].
  - left. apply count_zero_not_in in Ec. split; [exact Ec|].
    now rewrite PyFacts.split_without.
  - right. destruct (PyFacts.first_occurrence "/"%char identifier) as (t & r & E & Ht & C);
      [lia|].
    assert (Hr : ~ In "/"%char r) by (apply count_zero_not_in; lia).
    exists t, r. split; [exact E|]. split; [exact Ht|]. split; [exact Hr|].
    rewrite E, PyFacts.split_first, PyFacts.split_without by assumption.
    reflexivity.
Qed.

Lemma parse_identifier_raw_few_slashes_witness :
  (~ In "/"%char (str "TXT/www.example.com.")
   /\ _parse_identifier (Base.world (str "example.com") Base.no_dns)
        (Base.invocation "delete") (str "TXT/www.example.com.")
        (Base.loaded Base.sample_zone)
      = (Raise IndexError, Base.loaded Base.sample_zone))
  \/ exists rdtype name : pystr,
       str "TXT/www.example.com." = rdtype ++ str "/" ++ name
       /\ ~ In "/"%char rdtype /\ ~ In "/"%char name
       /\ _parse_identifier (Base.world (str "example.com") Base.no_dns)
            (Base.invocation "delete") (str "TXT/www.example.com.")
            (Base.loaded Base.sample_zone)
          = (Ret (Some rdtype, Some name, Some []), Base.loaded Base.sample_zone).
Proof.
  apply (parse_identifier_raw_few_slashes
           (Base.world (str "example.com") Base.no_dns) (Base.invocation "delete")
           (str "TXT/www.example.com.") (Base.loaded Base.sample_zone)).
  - vm_compute. lia.
  - vm_compute. lia.
Defined.

(** X3. Every identifier a listing shows is resolved: [_parse_identifier]
    of the [id] of a listed record goes through the hash form and returns
    the type, the name with a final dot and the content of a listed record
    with that very [id], never three [None]. *)
Theorem listed_identifier_resolves (env : collaborators) (cfg : options)
    (st st' : provider) (records : list record) (r : record) :
  list_records env cfg None None None st = (Ret records, st') ->
  In r records ->
  exists r', In r' records /\ r_id r' = r_id r
             /\ _parse_identifier env cfg (r_id r) st
                = (Ret (Some (r_type r'), Some (r_name r' ++ str "."),
                        Some (r_content r')), st').
Proof.
  intros Hl Hin.
  destruct (listing_total env st None None None) as (records0 & H0).
  pose proof (list_records_cases env cfg st None None None records0 H0) as Hc.
  rewrite Hl in Hc.
  assert (Hlen : length (r_id r) <= 7).
  { destruct (list_records_ret env cfg _ _ _ _ _ _ Hl) as [H1 _].
    pose proof (@listing_ids env st None None None records H1) as Hall.
    rewrite Forall_forall in Hall. rewrite (Hall r Hin). lia. }
  rewrite (parse_identifier_hash env cfg (r_id r) st records0 Hlen H0).
  destruct (action_is_list cfg && session_lost cfg st); [discriminate|].
  injection Hc as -> ->. unfold resolve_hash.
  destruct (resolve_hash_fold (r_id r) records0 (None, None, None))
    as [[_ Hnone]|(r' & Hin' & Hid & E)].
  - exfalso. now apply (Hnone r Hin).
  - exists r'. rewrite E. now repeat split.
Qed.

Lemma listed_identifier_resolves_witness :
  exists r', In r' [ Record_ (str "TXT") (str "_acme-challenge.example.com") 300
                             (str "abc123") (str "855a488");
                     Record_ (str "TXT") (str "_acme-challenge.example.com") 300
                             (str "def456") (str "435c877");
                     Record_ (str "A") (str "www.example.com") 3600
                             (str "192.0.2.1") (str "6baa035") ]
             /\ r_id r' = str "435c877"
             /\ _parse_identifier (Base.world (str "example.com") Base.no_dns)
                  (Base.invocation "update") (str "435c877")
                  (Base.loaded Base.sample_zone)
                = (Ret (Some (r_type r'), Some (r_name r' ++ str "."),
                        Some (r_content r')), Base.loaded Base.sample_zone).
Proof.
  apply (listed_identifier_resolves
           (Base.world (str "example.com") Base.no_dns) (Base.invocation "update")
           (Base.loaded Base.sample_zone) (Base.loaded Base.sample_zone) _
           (Record_ (str "TXT") (str "_acme-challenge.example.com") 300
                    (str "def456") (str "435c877"))).
  - vm_compute. reflexivity.
  - right. left. reflexivity.
Defined.

(** ** ContentNormalizer: what the normal form is *)

Section NormalForm.

Variable env : collaborators.

(** Well-formed content of a quoted type has a quote at both ends. *)
Lemma wellformed_quoted_shape (t c w : pystr) :
  Py.mem t quoted_types = true ->
  _wellformed_content env t c = Ret w ->
  first_char w = Some dquote /\ last_char w = Some dquote.
Proof.
  intros Ht. unfold _wellformed_content. fold quoted_types fqdn_types.
  rewrite Ht, (quoted_not_fqdn _ Ht).
  destruct c as [|x c]; [discriminate|]. cbn [index_first obind].
  set (c1 := if negb (Ascii.eqb x dquote) then dquote :: x :: c else x :: c).
  assert (H1 : first_char c1 = Some dquote).
  { subst c1. destruct (Ascii.eqb_spec x dquote) as [->|_]; reflexivity. }
  assert (Hne : c1 <> []) by (intros E; rewrite E in H1; discriminate).
  rewrite index_last_char. destruct (last_char c1) as [l|] eqn:El;
    [|apply last_char_none in El; contradiction].
  cbn [obind]. intros [= <-].
  destruct (Ascii.eqb_spec l dquote) as [->|_]; cbn [negb].
  - now split.
  - split; [|apply last_char_app].
    destruct c1; [contradiction | exact H1].
Qed.

(** Content with a quote at both ends is left alone. *)
Lemma wellformed_quoted_fixed (t w : pystr) :
  Py.mem t quoted_types = true ->
  first_char w = Some dquote -> last_char w = Some dquote ->
  _wellformed_content env t w = Ret w.
Proof.
  intros Ht Hf Hl. unfold _wellformed_content. fold quoted_types fqdn_types.
  rewrite Ht, (quoted_not_fqdn _ Ht).
  destruct w as [|x w]; [discriminate|]. cbn [first_char hd_error] in Hf.
  injection Hf as ->. cbn [index_first obind]. rewrite Ascii.eqb_refl. cbn [negb].
  rewrite index_last_char, Hl. cbn [obind]. now rewrite Ascii.eqb_refl.
Qed.

End NormalForm.

(** X4. [_wellformed_content] is idempotent: content it returned is returned
    unchanged when normalized again, for every record type, as long as the
    names made by [_fqdn_name] end with a dot. *)
Theorem wellformed_content_idempotent (env : collaborators) (t c w : pystr) :
  (forall s, last_char (_fqdn_name env s) = Some "."%char) ->
  _wellformed_content env t c = Ret w ->
  _wellformed_content env t w = Ret w.
Proof.
  intros Hfq Hw.
  destruct (Py.mem t quoted_types) eqn:Eq.
  - destruct (wellformed_quoted_shape env t c w Eq Hw) as [Hf Hl].
    now apply wellformed_quoted_fixed.
  - destruct (Py.mem t fqdn_types) eqn:Ef.
    + assert (Hl : last_char w = Some "."%char).
      { destruct (last_char c) as [l|] eqn:El.
        - rewrite (@wellformed_fqdn env t c l Ef El) in Hw. injection Hw as <-.
          destruct (Ascii.eqb_spec l "."%char) as [->|_]; [exact El | apply Hfq].
        - apply last_char_none in El. subst c.
          rewrite wellformed_empty in Hw; [discriminate|].
          unfold Py.mem in Ef |- *. rewrite existsb_app, Ef. apply orb_true_r. }
      rewrite (@wellformed_fqdn env t w _ Ef Hl). reflexivity.
    + rewrite wellformed_other in Hw by assumption. injection Hw as <-.
      now apply wellformed_other.
Qed.

Lemma base_fqdn_name_dot (domain s : pystr) :
  last_char (Base.fqdn_name domain s) = Some "."%char.
Proof. unfold Base.fqdn_name. apply last_char_app. Qed.

Lemma wellformed_content_idempotent_witness :
  _wellformed_content (Base.world (str "example.com") Base.no_dns)
    (str "MX") (str "10 mail.example.com.")
  = Ret (str "10 mail.example.com.").
Proof.
  apply (wellformed_content_idempotent
           (Base.world (str "example.com") Base.no_dns)
           (str "MX") (str "10 mail") (str "10 mail.example.com.")).
  - intros s. apply base_fqdn_name_dot.
  - vm_compute. reflexivity.
Defined.

(** X5. The normal form of the zone is read back: for a TXT or LOC rdata
    whose text is a non-empty string between two quotes, with no quote at
    either end of the string, and for a CNAME, MX, NS or SRV rdata whose
    text ends with a dot, [_wellformed_content] of [_raw_content] of the
    text is the text.  This is how [update_record] and [delete_record] find
    a listed record in its rdataset again. *)
Theorem wellformed_of_raw_inverse (env : collaborators) (t text : pystr) :
  (Py.mem t quoted_types = true ->
   exists inner, text = dquote :: inner ++ [dquote] /\ inner <> []
                 /\ first_char inner <> Some dquote
                 /\ last_char inner <> Some dquote) ->
  (Py.mem t fqdn_types = true -> last_char text = Some "."%char) ->
  _wellformed_content env t (_raw_content t text) = Ret text.
Proof.
  intros Hq Hf. unfold _raw_content. fold quoted_types.
  destruct (Py.mem t quoted_types) eqn:Eq.
  - destruct (Hq eq_refl) as (inner & -> & Hne & Hfirst & Hlast).
    rewrite PyFacts.strip_quoted by assumption.
    now apply wellformed_quotes.
  - destruct (Py.mem t fqdn_types) eqn:Ef.
    + rewrite (@wellformed_fqdn env t text _ Ef (Hf eq_refl)). reflexivity.
    + now apply wellformed_other.
Qed.

Lemma wellformed_of_raw_inverse_witness :
  _wellformed_content (Base.world (str "example.com") Base.no_dns) (str "TXT")
    (_raw_content (str "TXT") (Base.quoted "abc123"))
  = Ret (Base.quoted "abc123").
Proof.
  apply (wellformed_of_raw_inverse
           (Base.world (str "example.com") Base.no_dns)
           (str "TXT") (Base.quoted "abc123")).
  - intros _. exists (str "abc123").
    repeat split; vm_compute; discriminate.
  - vm_compute. discriminate.
Defined.

(** ** Listing *)

Section ListingFacts.

Variable env : collaborators.
Variable cfg : options.

Lemma list_rdatas_exact (rname : pystr) (rds : rdataset)
    (content : option pystr) (items : list pystr) :
  forall records records',
    list_rdatas env (rds_type rds) rname (rds_ttl rds) content items records
    = Ret records' ->
    forall r, In r records' <->
              In r records
              \/ exists rdata, In rdata items
                   /\ (Py.truthy content = true ->
                       _wellformed_content env (rds_type rds) (Py.the content)
                       = Ret rdata)
                   /\ r = record_of env rname rds rdata.
Proof.
  induction items as [|rdata rest IH]; intros records records' H r;
    cbn [list_rdatas] in H.
  - injection H as <-. split; [now left|].
    intros [Hin|(x & [] & _)]. exact Hin.
  - destruct (Py.truthy content) eqn:Et; cbn [negb obind] in H.
    + destruct (@wellformed_nonempty env (rds_type rds) (Py.the content)) as (w & Hw).
      { destruct content as [[|x c]|]; cbn in Et |- *; congruence. }
      rewrite Hw in H. cbn [obind] in H.
      destruct (Py.eqb w rdata) eqn:Ew.
      * apply PyFacts.eqb_eq in Ew. subst w.
        rewrite (IH _ _ H r), in_app_iff. cbn [In]. split.
        -- intros [[Hin|[<-|[]]]|(x & Hx & Hc & Hr)].
           ++ now left.
           ++ right. exists rdata. split; [now left|]. split; [auto | reflexivity].
           ++ right. exists x. split; [now right|]. now split.
        -- intros [Hin|(x & [<-|Hx] & Hc & Hr)].
           ++ left. now left.
           ++ left. right. left. now rewrite Hr.
           ++ right. exists x. now repeat split.
      * apply PyFacts.eqb_neq in Ew.
        rewrite (IH _ _ H r). split.
        -- intros [Hin|(x & Hx & Hc & Hr)]; [now left|].
           right. exists x. split; [now right|]. now split.
        -- intros [Hin|(x & [<-|Hx] & Hc & Hr)]; [now left| |].
           ++ exfalso. specialize (Hc eq_refl). congruence.
           ++ right. exists x. now repeat split.
    + rewrite (IH _ _ H r), in_app_iff. cbn [In]. split.
      * intros [[Hin|[<-|[]]]|(x & Hx & Hc & Hr)].
        -- now left.
        -- right. exists rdata. split; [now left|]. split; [discriminate | reflexivity].
        -- right. exists x. split; [now right|]. now split.
      * intros [Hin|(x & [<-|Hx] & Hc & Hr)].
        -- left. now left.
        -- left. right. left. now rewrite Hr.
        -- right. exists x. now repeat split.
Qed.

Lemma list_rrsets_exact (st : provider) (type name content : option pystr)
    (rrsets : list (pystr * rdataset)) :
  forall records records',
    list_rrsets env (cname st) type name content rrsets records = Ret records' ->
    forall r, In r records' <->
              In r records
              \/ exists rname rds rdata,
                   In (rname, rds) rrsets /\ In rdata (rds_items rds)
                   /\ selected env st type name content rname rds rdata
                   /\ r = record_of env rname rds rdata.
Proof.
  induction rrsets as [|[rname rds] rest IH]; intros records records' H r;
    cbn [list_rrsets] in H.
  - injection H as <-. split; [now left|].
    intros [Hin|(x & y & z & [] & _)]. exact Hin.
  - cbv zeta in H.
    destruct ((negb (Py.truthy type) || Py.eqb (Py.the type) (rds_type rds))
              && (negb (Py.truthy name)
                  || Py.eqb (owner_name env (cname st) (Py.the name)) rname))
      eqn:Ec.
    + apply andb_true_iff in Ec. destruct Ec as [Ect Ecn].
      assert (Htype : Py.truthy type = true -> Py.the type = rds_type rds).
      { intros Ht. rewrite Ht in Ect. now apply PyFacts.eqb_eq. }
      assert (Hname : Py.truthy name = true ->
                      owner_name env (cname st) (Py.the name) = rname).
      { intros Hn. rewrite Hn in Ecn. now apply PyFacts.eqb_eq. }
      destruct (list_rdatas env (rds_type rds) rname (rds_ttl rds) content
                  (rds_items rds) records) as [records1|e] eqn:E1;
        cbn [obind] in H; [|discriminate].
      rewrite (IH _ _ H r).
      rewrite (list_rdatas_exact rname rds content _ _ _ E1 r). split.
      * intros [[Hin|(x & Hx & Hc & Hr)]|(n & d & x & Hnd & Hx & Hs & Hr)].
        -- now left.
        -- right. exists rname, rds, x. split; [now left|]. split; [exact Hx|].
           split; [|exact Hr]. split; [exact Htype|]. split; [exact Hname | exact Hc].
        -- right. exists n, d, x. split; [now right|]. split; [exact Hx|]. split; [exact Hs | exact Hr].
      * intros [Hin|(n & d & x & [[= <- <-]|Hnd] & Hx & Hs & Hr)].
        -- left. now left.
        -- left. right. exists x. split; [exact Hx|]. split; [apply Hs | exact Hr].
        -- right. exists n, d, x. split; [exact Hnd|]. split; [exact Hx|]. split; [exact Hs | exact Hr].
    + rewrite (IH _ _ H r). split.
      * intros [Hin|(n & d & x & Hnd & Hx & Hs & Hr)]; [now left|].
        right. exists n, d, x. split; [now right|]. split; [exact Hx|]. split; [exact Hs | exact Hr].
      * intros [Hin|(n & d & x & [[= <- <-]|Hnd] & Hx & Hs & Hr)]; [now left| |].
        -- exfalso. destruct Hs as (Hst & Hsn & _).
           apply andb_false_iff in Ec. destruct Ec as [Ec|Ec];
             apply orb_false_iff in Ec; destruct Ec as [Ec1 Ec2];
             apply negb_false_iff in Ec1; apply PyFacts.eqb_neq in Ec2; auto.
        -- right. exists n, d, x. split; [exact Hnd|]. split; [exact Hx|]. split; [exact Hs | exact Hr].
Qed.

End ListingFacts.

(** X6. How [list_records] ends.  The filters never make it raise: an
    empty content filter is not normalized, so the [IndexError] of
    [_wellformed_content] cannot occur.  Under every action but [list] it
    returns the records and leaves the provider as it was.  Under the action
    [list] it closes the session before it returns, and raises
    [AttributeError] instead when there is a logout to send and no session
    to send it with, as when [_concatenate] resolves a short identifier
    before the session is opened. *)
Theorem list_records_outcome (env : collaborators) (cfg : options)
    (type name content : option pystr) (st : provider) :
  exists records,
    list_records env cfg type name content st
    = if action_is_list cfg then
        if session_lost cfg st then (Raise AttributeError, count_close st)
        else (Ret records, snd (_close_session cfg st))
      else (Ret records, st).
Proof.
  destruct (listing_total env st type name content) as (records & H).
  exists records. rewrite (list_records_cases env cfg _ _ _ _ _ H).
  destruct (action_is_list cfg); cbn [andb]; [|reflexivity].
  destruct (session_lost cfg st) eqn:Es; [reflexivity|].
  now rewrite close_session_open.
Qed.

(** X7. What a listing holds: a record is listed exactly when it is the
    record of an rdata of the zone that passes the three filters (the type
    when given, the owner name when given, with the CNAME in its place, and
    the content when given, compared in well-formed form); its content is
    the raw form of the rdata and its [id] the identifier built from the
    type, the owner name and that content. *)
Theorem list_records_exact (env : collaborators) (cfg : options)
    (type name content : option pystr) (st st' : provider)
    (records : list record) :
  list_records env cfg type name content st = (Ret records, st') ->
  forall r, In r records <->
            exists rname rds rdata,
              In (rname, rds) (rrsets_of st) /\ In rdata (rds_items rds)
              /\ selected env st type name content rname rds rdata
              /\ r = record_of env rname rds rdata.
Proof.
  intros Hl r.
  destruct (listing_total env st type name content) as (records0 & H0).
  destruct (list_records_ret env cfg _ _ _ _ _ _ Hl) as [H1 _].
  rewrite H1 in H0. injection H0 as <-.
  unfold listing in H1. fold (rrsets_of st) in H1.
  rewrite (list_rrsets_exact env st type name content _ _ _ H1 r).
  split; [intros [[]|H]; exact H | intros H; now right].
Qed.

Lemma list_records_exact_witness :
  In (Record_ (str "TXT") (str "_acme-challenge.example.com") 300
              (str "def456") (str "435c877"))
     [ Record_ (str "TXT") (str "_acme-challenge.example.com") 300
               (str "def456") (str "435c877") ] <->
  exists rname rds rdata,
    In (rname, rds) (rrsets_of (Base.loaded Base.sample_zone))
    /\ In rdata (rds_items rds)
    /\ selected (Base.world (str "example.com") Base.no_dns)
         (Base.loaded Base.sample_zone)
         (Some (str "TXT")) (Some (str "_acme-challenge")) (Some (str "def456"))
         rname rds rdata
    /\ Record_ (str "TXT") (str "_acme-challenge.example.com") 300
               (str "def456") (str "435c877")
       = record_of (Base.world (str "example.com") Base.no_dns) rname rds rdata.
Proof.
  apply (list_records_exact
           (Base.world (str "example.com") Base.no_dns) (Base.invocation "update")
           (Some (str "TXT")) (Some (str "_acme-challenge")) (Some (str "def456"))
           (Base.loaded Base.sample_zone) (Base.loaded Base.sample_zone)).
  vm_compute. reflexivity.
Defined.

(** ** Submissions *)

Section QuietFacts.

Context {A B : Type}.

Lemma quiet_bind (m : M A) (k : A -> M B) :
  quiet m -> (forall a, quiet (k a)) -> quiet (bind m k).
Proof.
  intros Hm Hk st. unfold bind. pose proof (Hm st) as H.
  destruct (m st) as [[a|e] st']; cbn [snd] in *; [|exact H].
  now rewrite Hk.
Qed.

Lemma quiet_keeps (m : M A) : keeps_zone m -> quiet m.
Proof. intros H st. apply H. Qed.

Lemma submits_quiet (env : collaborators) (m : M A) :
  quiet m -> submits_once env m.
Proof. intros H st o st' E. left. specialize (H st). now rewrite E in H. Qed.

Lemma submits_bind (env : collaborators) (m : M A) (k : A -> M B) :
  quiet m -> (forall a, submits_once env (k a)) -> submits_once env (bind m k).
Proof.
  intros Hm Hk st o st' E. unfold bind in E. pose proof (Hm st) as H.
  destruct (m st) as [[a|e] st1]; cbn [snd] in H.
  - rewrite <- H. exact (Hk a st1 o st' E).
  - injection E as _ <-. now left.
Qed.

End QuietFacts.

Lemma quiet_ret {A : Type} (a : A) : quiet (ret a).
Proof. intros st. reflexivity. Qed.

Lemma quiet_raise {A : Type} (e : exn) : quiet (@raise A e).
Proof. intros st. reflexivity. Qed.

Lemma quiet_lift {A : Type} (o : outcome A) : quiet (lift o).
Proof. intros st. reflexivity. Qed.

Lemma quiet_gets {A : Type} (f : provider -> A) : quiet (gets f).
Proof. intros st. reflexivity. Qed.

Lemma quiet_set_records (z : dns_zone) : quiet (modify (set_records z)).
Proof. intros st. reflexivity. Qed.

Lemma quiet_zone_records : quiet zone_records.
Proof.
  unfold zone_records. apply quiet_bind; [apply quiet_gets|].
  intros [zd|]; [apply quiet_ret | apply quiet_raise].
Qed.

Lemma keeps_sleep (n : nat) : keeps_zone (sleep n).
Proof. apply keeps_modify. intros st. now split. Qed.

Create HintDb quiet.

#[export] Hint Resolve quiet_ret quiet_raise quiet_lift quiet_gets
  quiet_set_records quiet_zone_records : quiet.

Ltac quiet_bind0 :=
  apply quiet_bind; [solve [eauto with quiet] | intros ?].

Section SubmissionFacts.

Variable env : collaborators.
Variable cfg : options.

Lemma quiet_close_session : quiet (_close_session cfg).
Proof. apply quiet_keeps, keeps_close_session. Qed.

Lemma quiet_close_ret {B : Type} (b : B) : quiet (_close_session cfg ;; ret b).
Proof. apply quiet_bind; [apply quiet_close_session | intros _; apply quiet_ret]. Qed.

Lemma quiet_get_rdataset_create (name rdtype : pystr) :
  quiet (get_rdataset_create name rdtype).
Proof. unfold get_rdataset_create. do 2 quiet_bind0. apply quiet_ret. Qed.

Lemma quiet_get_rdataset_iter (name rdtype : pystr) :
  quiet (get_rdataset_iter name rdtype).
Proof.
  unfold get_rdataset_iter. quiet_bind0.
  destruct (DnsZone.get_rdataset name rdtype a); [apply quiet_ret | apply quiet_raise].
Qed.

Lemma quiet_add_rdata (owner type content : pystr) (rrset : rdataset) :
  quiet (add_rdata env cfg owner type content rrset).
Proof. unfold add_rdata. do 3 quiet_bind0. apply quiet_set_records. Qed.

Lemma quiet_list_records (type name content : option pystr) :
  quiet (list_records env cfg type name content).
Proof. apply quiet_keeps, keeps_list_records. Qed.

Lemma quiet_parse_identifier (identifier : pystr) :
  quiet (_parse_identifier env cfg identifier).
Proof. apply quiet_keeps, keeps_parse_identifier. Qed.

Hint Resolve quiet_close_session quiet_get_rdataset_create quiet_get_rdataset_iter
  quiet_add_rdata quiet_list_records quiet_parse_identifier : quiet.

Lemma quiet_update_delete_loop (delete_content : option pystr)
    (delete_records : list record) :
  quiet (update_delete_loop env cfg delete_content delete_records).
Proof.
  induction delete_records as [|rec0 rest IH]; cbn [update_delete_loop];
    [apply quiet_ret|].
  do 2 quiet_bind0. destruct a0 as [|rdata keep].
  - do 2 quiet_bind0. exact IH.
  - destruct (Py.is_none delete_content); [apply quiet_close_ret|].
    do 3 quiet_bind0. exact IH.
Qed.

Lemma quiet_delete_loop (delete_records : list record) :
  quiet (delete_loop env delete_records).
Proof.
  induction delete_records as [|rec0 rest IH]; cbn [delete_loop];
    [apply quiet_ret|].
  do 2 quiet_bind0. destruct a0 as [|rdata keep].
  - do 2 quiet_bind0. exact IH.
  - do 3 quiet_bind0. exact IH.
Qed.

Lemma quiet_update_arguments (identifier type name content : option pystr) :
  quiet (update_arguments env cfg identifier type name content).
Proof.
  unfold update_arguments. destruct (Py.truthy identifier).
  - quiet_bind0. destruct a as [[delete_type delete_name] delete_content].
    destruct (_ && _); [apply quiet_ret | apply quiet_close_ret].
  - destruct (_ && _); [apply quiet_ret | apply quiet_close_ret].
Qed.

Lemma quiet_delete_arguments (identifier type name content : option pystr) :
  quiet (delete_arguments env cfg identifier type name content).
Proof.
  unfold delete_arguments. destruct (Py.truthy identifier); [|apply quiet_ret].
  quiet_bind0. destruct a as [[t n] c].
  destruct (_ || _); [apply quiet_close_ret | apply quiet_ret].
Qed.

Lemma keeps_propagated_loop (remaining : nat) (rdtype name content : pystr) :
  keeps_zone (propagated_loop env remaining rdtype name content).
Proof.
  induction remaining as [|remaining IH]; cbn [propagated_loop]; [apply keeps_ret|].
  apply keeps_bind; [apply keeps_gets | intros cn].
  apply keeps_bind; [apply keeps_gets | intros ns].
  apply keeps_bind; [apply keeps_gets | intros t].
  apply keeps_bind; [apply keeps_lift | intros found].
  destruct found; [apply keeps_ret|].
  apply keeps_bind; [apply keeps_sleep | intros _; exact IH].
Qed.

Lemma keeps_propagated (rdtype name content : pystr) :
  keeps_zone (_propagated env cfg rdtype name content).
Proof.
  unfold _propagated. destruct (propagated_is_yes cfg);
    [apply keeps_propagated_loop | apply keeps_ret].
Qed.

Lemma post_zone_eq (st : provider) :
  _post_zone env cfg st
  = if session st then
      match zone st with
      | None => (Raise TypeError, st)
      | Some zd =>
          match post_response (robot_language env) with
          | Raise e => (Raise e, add_post (z_data zd) st)
          | Ret confirmation =>
              if Py.contains confirmation (robot_update env zd) then
                (Ret true,
                 if negb (live_tests_is_false cfg)
                 then advance_clock 30 (add_post (z_data zd) st)
                 else add_post (z_data zd) st)
              else (Ret false, add_post (z_data zd) st)
          end
      end
    else (Raise AttributeError, st).
Proof.
  unfold _post_zone, session_request, bind, gets, modify, lift, sleep, ret, raise.
  destruct (session st); [|reflexivity].
  destruct (zone st) as [zd|]; [|reflexivity].
  destruct (post_response (robot_language env)) as [confirmation|e]; [|reflexivity].
  destruct (Py.contains confirmation (robot_update env zd)); [|reflexivity].
  now destruct (negb (live_tests_is_false cfg)).
Qed.

(** The ways [_post_zone] ends: before the submission, without a session
    or without a zone; after it, with a [KeyError] or with the verdict. *)
Lemma post_zone_cases (st : provider) :
  (exists e, _post_zone env cfg st = (Raise e, st))
  \/ exists zd, zone st = Some zd /\ session st = true
       /\ ((post_response (robot_language env) = Raise KeyError
            /\ _post_zone env cfg st = (Raise KeyError, add_post (z_data zd) st))
           \/ exists confirmation st',
                post_response (robot_language env) = Ret confirmation
                /\ _post_zone env cfg st
                   = (Ret (Py.contains confirmation (robot_update env zd)), st')
                /\ zone st' = Some zd
                /\ session st' = true
                /\ posts st' = posts st ++ [z_data zd]).
Proof.
  rewrite post_zone_eq.
  destruct (session st) eqn:Es; [|left; now exists AttributeError].
  destruct (zone st) as [zd|] eqn:Ez;
    [right; exists zd; split; [reflexivity|]; split; [reflexivity|]
    |left; now exists TypeError].
  assert (Hlang : forall e, post_response (robot_language env) = Raise e -> e = KeyError).
  { unfold post_response. intros e. repeat destruct (Py.eqb _ _); congruence. }
  destruct (post_response (robot_language env)) as [confirmation|e] eqn:Ep.
  - right. exists confirmation.
    destruct (Py.contains confirmation (robot_update env zd)).
    + destruct (negb (live_tests_is_false cfg)).
      * exists (advance_clock 30 (add_post (z_data zd) st)).
        repeat split; cbn; assumption.
      * exists (add_post (z_data zd) st). repeat split; cbn; assumption.
    + exists (add_post (z_data zd) st). repeat split; cbn; assumption.
  - left. rewrite (Hlang e eq_refl). now split.
Qed.

(** A submission followed by steps that leave the zone alone. *)
Lemma submits_post {B : Type} (k : bool -> M B) :
  (forall b, keeps_zone (k b)) ->
  submits_once env (bind (_post_zone env cfg) k).
Proof.
  intros Hk st o st' E.
  destruct (post_zone_cases st) as [[e Ep]|(zd & Ez & Es & [[El Ep]|Hret])].
  - erewrite bind_raise in E by exact Ep. injection E as _ <-. now left.
  - erewrite bind_raise in E by exact Ep. injection E as <- <-.
    right. exists zd. split; [exact Ez|]. split; reflexivity.
  - destruct Hret as (confirmation & st1 & El & Ep & Ez1 & Es1 & Hp1).
    erewrite bind_ret in E by exact Ep.
    destruct (Hk (Py.contains confirmation (robot_update env zd)) st1) as [Hz Hp].
    rewrite E in Hz, Hp. cbn [snd] in Hz, Hp.
    right. exists zd. split; [congruence|]. split; [congruence|].
    intros Hkey. congruence.
Qed.

Lemma keeps_synced (type name content : pystr) (synced_change : bool) :
  keeps_zone ((if synced_change
               then _propagated env cfg type name content ;; ret tt
               else ret tt) ;;
              _close_session cfg ;;
              ret synced_change).
Proof.
  apply keeps_bind.
  - destruct synced_change; [|apply keeps_ret].
    apply keeps_bind; [apply keeps_propagated | intros _; apply keeps_ret].
  - intros _. apply keeps_bind; [apply keeps_close_session | intros _; apply keeps_ret].
Qed.

Lemma submits_create_record (type name content : option pystr) :
  submits_once env (create_record env cfg type name content).
Proof.
  unfold create_record.
  destruct type as [type|]; [|apply submits_quiet, quiet_close_ret].
  destruct name as [name|]; [|apply submits_quiet, quiet_close_ret].
  destruct content as [content|]; [|apply submits_quiet, quiet_close_ret].
  apply submits_bind; [apply quiet_gets | intros cn].
  apply submits_bind; [apply quiet_get_rdataset_create | intros rrset].
  apply submits_bind; [apply quiet_lift | intros found].
  destruct found; [apply submits_quiet, quiet_close_ret|].
  apply submits_bind; [apply quiet_add_rdata | intros _].
  apply submits_post. intros b. apply keeps_synced.
Qed.

Lemma submits_update_record (identifier type name content : option pystr) :
  submits_once env (update_record env cfg identifier type name content).
Proof.
  unfold update_record.
  apply submits_bind; [apply quiet_update_arguments|].
  intros [[[[type' name'] content'] [[delete_type delete_name] delete_content]]|];
    [|apply submits_quiet, quiet_ret].
  apply submits_bind; [apply quiet_list_records|].
  intros [|rec0 rest]; [apply submits_quiet, quiet_close_ret|].
  apply submits_bind; [apply quiet_update_delete_loop|].
  intros [b|]; [apply submits_quiet, quiet_ret|].
  cbv zeta.
  apply submits_bind; [apply quiet_gets | intros cn].
  apply submits_bind; [apply quiet_get_rdataset_create | intros rrset].
  apply submits_bind; [apply quiet_lift | intros found].
  apply submits_bind.
  - destruct found; [apply quiet_ret | apply quiet_add_rdata].
  - intros _. apply submits_post. intros b. apply keeps_synced.
Qed.

Lemma submits_delete_record (identifier type name content : option pystr) :
  submits_once env (delete_record env cfg identifier type name content).
Proof.
  unfold delete_record.
  apply submits_bind; [apply quiet_delete_arguments|].
  intros [[[type' name'] content']|]; [|apply submits_quiet, quiet_ret].
  apply submits_bind; [apply quiet_list_records|].
  intros [|rec0 rest]; [apply submits_quiet, quiet_close_ret|].
  apply submits_bind; [apply quiet_delete_loop | intros _].
  apply submits_post. intros b.
  apply keeps_bind; [apply keeps_close_session | intros _; apply keeps_ret].
Qed.

Lemma submits_run (op : operation) : submits_once env (run env cfg op).
Proof.
  destruct op as [t n c|i t n c|i t n c]; cbn [run].
  - apply submits_create_record.
  - apply submits_update_record.
  - apply submits_delete_record.
Qed.

End SubmissionFacts.

(** X8. However it ends, returning or raising, an operation submits the
    zone to the Robot at most once, and what it submits is the zone the
    provider holds when the operation ends: every change of the zone is made
    before the submission, none after. *)
Theorem operation_submits_once (env : collaborators) (cfg : options)
    (op : operation) (st : provider) :
  posts (snd (run env cfg op st)) = posts st
  \/ exists zd,
       zone (snd (run env cfg op st)) = Some zd
       /\ posts (snd (run env cfg op st)) = posts st ++ [z_data zd].
Proof.
  destruct (run env cfg op st) as [o st'] eqn:E. cbn [snd].
  destruct (submits_run env cfg op st o st' E) as [H|(zd & Hz & Hp & _)];
    [now left | right; eauto].
Qed.

(** X9. When the language of the Robot account is neither [de_DE] nor
    [en_GB], an operation that submits the zone does not return: the zone is
    sent, and the lookup of the confirmation text raises [KeyError].  So an
    operation that returns under such a language has submitted nothing. *)
Theorem unknown_language_raises (env : collaborators) (cfg : options)
    (op : operation) (st st' : provider) (o : outcome bool) :
  robot_language env <> str "de_DE" ->
  robot_language env <> str "en_GB" ->
  run env cfg op st = (o, st') ->
  posts st' <> posts st ->
  o = Raise KeyError.
Proof.
  intros Hde Hen E Hp.
  destruct (submits_run env cfg op st o st' E) as [H|(zd & _ & _ & Hkey)];
    [contradiction|].
  apply Hkey. unfold post_response.
  apply PyFacts.eqb_neq in Hde, Hen. now rewrite Hde, Hen.
Qed.

Lemma unknown_language_raises_witness :
  fst (run (Collaborators (Base.fqdn_name (str "example.com"))
              (Base.full_name (str "example.com")) Base.no_dns (str "fr_FR")
              (fun _ => str "Merci") (fun _ text => Ret text))
         (Base.invocation "delete")
         (Delete (Some (str "435c877")) None None None)
         (Base.loaded Base.sample_zone))
  = Raise KeyError.
Proof.
  apply (unknown_language_raises
           (Collaborators (Base.fqdn_name (str "example.com"))
              (Base.full_name (str "example.com")) Base.no_dns (str "fr_FR")
              (fun _ => str "Merci") (fun _ text => Ret text))
           (Base.invocation "delete")
           (Delete (Some (str "435c877")) None None None)
           (Base.loaded Base.sample_zone)
           (snd (run (Collaborators (Base.fqdn_name (str "example.com"))
                        (Base.full_name (str "example.com")) Base.no_dns
                        (str "fr_FR") (fun _ => str "Merci")
                        (fun _ text => Ret text))
                   (Base.invocation "delete")
                   (Delete (Some (str "435c877")) None None None)
                   (Base.loaded Base.sample_zone)))).
  - vm_compute. discriminate.
  - vm_compute. discriminate.
  - apply surjective_pairing.
  - vm_compute. discriminate.
Defined.

(** ** The zone object, continued *)

Module ZoneFacts.
Import DnsZone.




















End ZoneFacts.

(** ** What the operations do to the zone *)





Section EffectFacts.

Variable env : collaborators.
Variable cfg : options.







End EffectFacts.




Section DeleteEffect.

Variable env : collaborators.
Variable cfg : options.




End DeleteEffect.



(** ** Update, continued *)






